(** * EcoTrail Gear API: the catalogue handlers of [main.py]

    A shallow embedding of the request handlers [get_impact],
    [list_products] and [get_reviews], of the values they move around
    (Python dictionaries holding JSON-like data) and of the document store
    they query, followed by the properties of the listing, filtering,
    sorting and paging logic.

    Conventions.
    - A Python [int] is a [Z]; a finite Python [float] is the rational it
      denotes, a [Q] (349.0 is [349 # 1], 4.7 is [47 # 10]); infinities and
      NaN are outside the model.
    - A Python [dict] with string keys is a [gmap string _].
    - A call that may raise returns a [result]; a handler returns an [http]
      value, either the response body or the [HTTPException] it raises. *)

From Stdlib Require Import ZArith QArith Lia Ascii DecimalString.
From stdpp Require Import gmap strings list fin_maps sorting.

#[local] Set Warnings "-register-all".
#[local] Open Scope string_scope.
#[local] Open Scope Z_scope.

(** ** Python values, exceptions and builtins *)

Module Py.

(** The values found in stored documents and in responses. *)
Inductive value : Type :=
  | VNone
  | VBool (b : bool)
  | VInt (z : Z)
  | VFloat (x : Q)
  | VStr (s : string)
  | VObjectId (hex : string)
  | VList (l : list value)
  | VDict (d : list (string * value)).

(** An exception, with its class name and the text [str(e)] yields. *)
Record exn : Type := Exn { exn_class : string; exn_msg : string }.

Inductive result (A : Type) : Type :=
  | Ok (a : A)
  | Raise (e : exn).
Arguments Ok {A} a.
Arguments Raise {A} e.

#[global] Instance result_ret : MRet result := λ A a, Ok a.
#[global] Instance result_bind : MBind result := λ A B f m,
  match m with
  | Ok a => f a
  | Raise e => Raise e
  end.

(** [for x in l: ys.append(f(x))], stopping at the first exception. *)
Fixpoint for_each {A B : Type} (f : A → result B) (l : list A)
    : result (list B) :=
  match l with
  | [] => Ok []
  | x :: l' => y ← f x; ys ← for_each f l'; Ok (y :: ys)
  end.

(** Truth value of an [Optional[str]] argument: [None] and the empty
    string are both false. *)
Definition truthy (o : option string) : bool :=
  match o with
  | Some s => negb (String.eqb s "")
  | None => false
  end.

(** [l[start:stop]]: an index below zero counts from the end of the list,
    and every index is clamped into [0, len(l)]. *)
Definition slice_index (len i : Z) : Z :=
  if i <? 0 then Z.max 0 (len + i) else Z.min i len.

Definition slice {A : Type} (l : list A) (start stop : Z) : list A :=
  let len := Z.of_nat (length l) in
  let lo := slice_index len start in
  let hi := slice_index len stop in
  take (Z.to_nat (hi - lo)) (drop (Z.to_nat lo) l).

(** [d.get(k, default)] *)
Definition get (d : gmap string value) (k : string) (dflt : value) : value :=
  default dflt (d !! k).

Definition str_of_int (z : Z) : string := NilZero.string_of_int (Z.to_int z).

(** The integer nearest to [z] that a double holds: [z] itself below
    [2^53] in absolute value, otherwise [z] rounded to 53 significant bits,
    ties going to the even mantissa. *)
Definition round_to_double (z : Z) : Z :=
  let a := Z.abs z in
  if a <? 2 ^ 53 then z
  else
    let e := Z.log2 a - 52 in
    let m := a / 2 ^ e in
    let rest := a mod 2 ^ e in
    let half := 2 ^ (e - 1) in
    let m' :=
      if (half <? rest) || ((rest =? half) && Z.odd m) then m + 1 else m in
    Z.sgn z * (m' * 2 ^ e).

Section Builtins.
(** What the interpreter prints for a float or a container, and how it
    reads a number out of a string ([None]: [ValueError]). *)
Variable py_repr : value → string.
Variable int_of_str : string → option Z.
Variable float_of_str : string → option Q.

(** [str(v)] *)
Definition str (v : value) : string :=
  match v with
  | VStr s => s
  | VObjectId hex => hex
  | VInt z => str_of_int z
  | VBool true => "True"
  | VBool false => "False"
  | VNone => "None"
  | VFloat _ | VList _ | VDict _ => py_repr v
  end.

(** [int(v)]: a float is truncated towards zero. *)
Definition int (v : value) : result Z :=
  match v with
  | VInt z => Ok z
  | VBool b => Ok (if b then 1 else 0)
  | VFloat x => Ok (Z.quot (Qnum x) (Z.pos (Qden x)))
  | VStr s =>
      match int_of_str s with
      | Some z => Ok z
      | None => Raise (Exn "ValueError" "invalid literal for int()")
      end
  | VNone | VObjectId _ | VList _ | VDict _ =>
      Raise (Exn "TypeError" "int() argument must be a string or a number")
  end.

(** [float(v)]: an integer is rounded to the nearest double, and
    [OverflowError] is raised when that is beyond the largest one. *)
Definition float (v : value) : result Q :=
  match v with
  | VFloat x => Ok x
  | VInt z =>
      let x := round_to_double z in
      if Z.abs x <? 2 ^ 1024 then Ok (inject_Z x)
      else Raise (Exn "OverflowError" "int too large to convert to float")
  | VBool b => Ok (if b then 1%Q else 0%Q)
  | VStr s =>
      match float_of_str s with
      | Some x => Ok x
      | None => Raise (Exn "ValueError" "could not convert string to float")
      end
  | VNone | VObjectId _ | VList _ | VDict _ =>
      Raise (Exn "TypeError" "float() argument must be a string or a number")
  end.
End Builtins.

End Py.
Import Py.

(** A handler either returns its response body or raises [HTTPException]. *)
Inductive http (A : Type) : Type :=
  | Response (body : A)
  | HTTPException (status_code : Z) (detail : string).
Arguments Response {A} body.
Arguments HTTPException {A} status_code detail.

(** [except Exception as e: raise HTTPException(status_code=500, detail=str(e))] *)
Definition or_500 {A : Type} (r : result A) : http A :=
  match r with
  | Ok a => Response a
  | Raise e => HTTPException 500 (exn_msg e)
  end.

(** ** The document store

    The handlers talk to a MongoDB database through its Python driver.  This
    module models the part of that interface they use, as the store
    documents it: query documents built from equality, [$in], [$gte],
    [$lte], [$regex] and a top-level [$or], over top-level field names;
    cursors with [sort], [skip] and [limit]; and [count_documents].  A
    store that cannot be reached is outside the model: the only failures
    are a query the store rejects and an argument the driver refuses. *)

Module Mongo.

Abbreviation doc := (gmap string value).

(** *** Query documents *)

(** What a query says about one field: [{"category": v}] or an operator
    document such as [{"$gte": a, "$lte": b}]. *)
Inductive cond : Type :=
  | Equals (v : value)
  | Ops (ops : gmap string value).

(** A top-level entry of a query: a field condition, or the list of
    alternatives under ["$or"]. *)
Inductive clause : Type :=
  | Field (c : cond)
  | AnyOf (alts : list (gmap string cond)).

Abbreviation query := (gmap string clause).

(** Every stored document carries the identifier the store gave it. *)
Record stored : Type := Stored { doc_id : value; doc_fields : doc }.

Abbreviation collection := (list stored).
Abbreviation database := (gmap string (list stored)).

(** *** Comparing stored values *)

(** Numbers compare by value whatever their representation. *)
Definition as_num (v : value) : option Q :=
  match v with
  | VInt z => Some (inject_Z z)
  | VFloat x => Some x
  | _ => None
  end.

(** The store's cross-type order: null, numbers, strings, documents,
    arrays, object ids, booleans.  Numbers are ordered by value and strings
    by their characters; two values of any other one type are left
    unordered (they compare equal). *)
Definition type_rank (v : value) : Z :=
  match v with
  | VNone => 1
  | VInt _ | VFloat _ => 2
  | VStr _ => 3
  | VDict _ => 4
  | VList _ => 5
  | VObjectId _ => 7
  | VBool _ => 8
  end.

Definition compare_values (a b : value) : comparison :=
  match as_num a, as_num b with
  | Some x, Some y => (x ?= y)%Q
  | _, _ =>
      match a, b with
      | VStr s, VStr t => String.compare s t
      | _, _ => type_rank a ?= type_rank b
      end
  end.

Definition le_value (a b : value) : Prop := compare_values a b ≠ Gt.

Fixpoint value_eqb (a b : value) : bool :=
  match a, b with
  | VNone, VNone => true
  | VBool x, VBool y => Bool.eqb x y
  | VInt x, VInt y => x =? y
  | VInt x, VFloat y => Qeq_bool (inject_Z x) y
  | VFloat x, VInt y => Qeq_bool x (inject_Z y)
  | VFloat x, VFloat y => Qeq_bool x y
  | VStr s, VStr t => String.eqb s t
  | VObjectId s, VObjectId t => String.eqb s t
  | VList l, VList m =>
      (fix go (l m : list value) : bool :=
         match l, m with
         | [], [] => true
         | x :: l', y :: m' => value_eqb x y && go l' m'
         | _, _ => false
         end) l m
  | VDict d, VDict e =>
      (fix go (d e : list (string * value)) : bool :=
         match d, e with
         | [], [] => true
         | (k, x) :: d', (k', y) :: e' =>
             String.eqb k k' && value_eqb x y && go d' e'
         | _, _ => false
         end) d e
  | _, _ => false
  end.

(** A condition on a field holds when the field's value satisfies it, or,
    for an array, when one of its elements does. *)
Definition candidates (v : value) : list value :=
  v :: match v with VList l => l | _ => [] end.

(** A missing field reads as null. *)
Definition field (d : doc) (k : string) : value := get d k VNone.

Section Matching.
(** The store's regular-expression engine: [regex_compile pattern options]
    is the search function of the compiled pattern, or [None] when the
    pattern is rejected. *)
Variable regex_compile : string → string → option (string → bool).

Definition regex_options (ops : gmap string value) : string :=
  match ops !! "$options" with
  | Some (VStr o) => o
  | _ => ""
  end.

Definition op_holds (ops : gmap string value) (name : string) (arg v : value)
    : bool :=
  if String.eqb name "$in" then
    match arg with
    | VList vs => existsb (λ c, existsb (value_eqb c) vs) (candidates v)
    | _ => false
    end
  else if String.eqb name "$gte" then
    existsb (λ c, (type_rank c =? type_rank arg)
                  && negb (bool_decide (compare_values c arg = Lt)))
            (candidates v)
  else if String.eqb name "$lte" then
    existsb (λ c, (type_rank c =? type_rank arg)
                  && negb (bool_decide (compare_values c arg = Gt)))
            (candidates v)
  else if String.eqb name "$regex" then
    match arg with
    | VStr pattern =>
        match regex_compile pattern (regex_options ops) with
        | Some search =>
            existsb (λ c, match c with VStr s => search s | _ => false end)
                    (candidates v)
        | None => false
        end
    | _ => false
    end
  else String.eqb name "$options".

(** Whether the store accepts the operator at all. *)
Definition op_valid (ops : gmap string value) (name : string) (arg : value)
    : bool :=
  if String.eqb name "$in" then
    match arg with VList _ => true | _ => false end
  else if String.eqb name "$gte" then true
  else if String.eqb name "$lte" then true
  else if String.eqb name "$regex" then
    match arg with
    | VStr pattern =>
        bool_decide (is_Some (regex_compile pattern (regex_options ops)))
    | _ => false
    end
  else if String.eqb name "$options" then
    match arg with
    | VStr _ => bool_decide (is_Some (ops !! "$regex"))
    | _ => false
    end
  else false.

Definition cond_holds (c : cond) (v : value) : bool :=
  match c with
  | Equals t => existsb (λ x, value_eqb x t) (candidates v)
  | Ops ops =>
      bool_decide (map_Forall (λ name arg, op_holds ops name arg v = true) ops)
  end.

Definition cond_valid (c : cond) : bool :=
  match c with
  | Equals _ => true
  | Ops ops =>
      bool_decide (map_Forall (λ name arg, op_valid ops name arg = true) ops)
  end.

Definition fields_hold (f : gmap string cond) (d : doc) : bool :=
  bool_decide (map_Forall (λ k c, cond_holds c (field d k) = true) f).

Definition fields_valid (f : gmap string cond) : bool :=
  bool_decide (map_Forall (λ _ c, cond_valid c = true) f).

Definition clause_holds (k : string) (cl : clause) (d : doc) : bool :=
  match cl with
  | Field c => cond_holds c (field d k)
  | AnyOf alts => existsb (λ f, fields_hold f d) alts
  end.

Definition clause_valid (k : string) (cl : clause) : bool :=
  match cl with
  | Field c => negb (String.prefix "$" k) && cond_valid c
  | AnyOf alts =>
      String.eqb k "$or" && negb (bool_decide (alts = []))
      && forallb fields_valid alts
  end.

(** All the entries of a query must hold: they are combined with AND. *)
Definition matches (f : query) (d : doc) : bool :=
  bool_decide (map_Forall (λ k cl, clause_holds k cl d = true) f).

Definition valid (f : query) : bool :=
  bool_decide (map_Forall (λ k cl, clause_valid k cl = true) f).

(** *** Collections and cursors *)

Definition as_dict (s : stored) : doc := <["_id" := doc_id s]> (doc_fields s).

(** [db[name]]: a collection that was never written to is empty. *)
Definition get_collection (db : database) (name : string)
    : collection :=
  default [] (db !! name).

(** Order of two documents under a sort specification, a list of
    (field, direction) pairs compared lexicographically. *)
Fixpoint compare_docs (spec : list (string * Z)) (a b : doc) : comparison :=
  match spec with
  | [] => Eq
  | (k, dir) :: spec' =>
      let c := compare_values (field a k) (field b k) in
      match (if dir <? 0 then CompOpp c else c) with
      | Eq => compare_docs spec' a b
      | c' => c'
      end
  end.

Definition le_docs (spec : list (string * Z)) (a b : doc) : Prop :=
  compare_docs spec a b ≠ Gt.

#[global] Instance le_docs_dec spec a b : Decision (le_docs spec a b).
Proof. unfold le_docs. apply _. Defined.

(** A cursor is lazy: it records the query and runs it when iterated. *)
Record cursor : Type := Cursor {
  cur_collection : collection;
  cur_filter : query;
  cur_sort : option (list (string * Z));
  cur_skip : Z;
  cur_limit : Z
}.

Definition find (coll : collection) (f : query) : cursor :=
  Cursor coll f None 0 0.

Definition sort (c : cursor) (spec : list (string * Z)) : cursor :=
  Cursor (cur_collection c) (cur_filter c) (Some spec) (cur_skip c)
    (cur_limit c).

(** [skip] refuses a negative count. *)
Definition skip (c : cursor) (n : Z) : result cursor :=
  if n <? 0 then Raise (Exn "ValueError" "skip must be >= 0")
  else
    Ok (Cursor (cur_collection c) (cur_filter c) (cur_sort c) n (cur_limit c)).

Definition limit (c : cursor) (n : Z) : cursor :=
  Cursor (cur_collection c) (cur_filter c) (cur_sort c) (cur_skip c) n.

Definition matching (coll : collection) (f : query) : list doc :=
  filter (λ d, matches f d = true) (as_dict <$> coll).

(** An integer the driver can put on the wire: at most 8 bytes. *)
Definition encodable (n : Z) : bool := (- 2 ^ 63 <=? n) && (n <? 2 ^ 63).

(** Iterating the cursor: filter, then sort, then skip, then limit.  A
    limit of 0 means no limit; a negative limit is taken in absolute
    value; the driver raises when it cannot encode the skip or the limit.
    Among documents with equal sort keys the order is the store's choice
    for each query; the model fixes one (the sort is stable), and no
    statement below relates the order of two queries. *)
Definition run (c : cursor) : result (list doc) :=
  if valid (cur_filter c) then
    if encodable (cur_skip c) && encodable (Z.abs (cur_limit c)) then
      let found := matching (cur_collection c) (cur_filter c) in
      let ordered :=
        match cur_sort c with
        | Some spec => merge_sort (le_docs spec) found
        | None => found
        end in
      let skipped := drop (Z.to_nat (cur_skip c)) ordered in
      Ok (if cur_limit c =? 0 then skipped
          else take (Z.to_nat (Z.abs (cur_limit c))) skipped)
    else
      Raise (Exn "OverflowError" "MongoDB can only handle up to 8-byte ints")
  else Raise (Exn "OperationFailure" "the query document is rejected").

Definition count_documents (coll : collection) (f : query) : result Z :=
  if valid f then Ok (Z.of_nat (length (matching coll f)))
  else Raise (Exn "OperationFailure" "the query document is rejected").

End Matching.

End Mongo.
Import Mongo.

(** ** The handlers *)

(** [class ImpactResponse(BaseModel)] *)
Record ImpactResponse : Type := {
  trees_planted : Z;
  bottles_recycled : Z;
  carbon_offset_kg : Q
}.

(** [class ProductListResponse(BaseModel)] *)
Record ProductListResponse : Type := {
  items : list doc;
  total : Z;
  page : Z;
  page_size : Z
}.

(** The values the [sort] query parameter is declared with:
    [Query("relevance", enum=[...])] on an [Optional[str]] argument. *)
Definition sort_default : string := "relevance".
Definition sort_enum : list string :=
  ["relevance"; "price_asc"; "price_desc"; "newest"; "best_sellers";
   "highest_rated"; "most_sustainable"].

(** Binding of the [sort] argument from the query string.  The argument is
    annotated [Optional[str]], so any string is bound as it is; the [enum]
    keyword of [Query] is carried into the published schema and takes no
    part in the binding. *)
Definition bind_sort (raw : option string) : option string :=
  match raw with
  | Some s => Some s
  | None => Some sort_default
  end.

(** The fallback catalogue of [list_products]. *)
Definition demo_items : list doc :=
  [ list_to_map
      [ ("id", VStr "demo-1");
        ("title", VStr "Evergreen Ultralight Tent");
        ("price", VFloat (349 # 1));
        ("sale_price", VFloat (299 # 1));
        ("currency", VStr "USD");
        ("category", VStr "Carbon-Neutral Camping Equipment");
        ("images", VList
           [ VStr "https://images.unsplash.com/photo-1501706362039-c06b2d715385?q=80&w=1200&auto=format&fit=crop";
             VStr "https://images.unsplash.com/photo-1504711434969-e33886168f5c?q=80&w=1200&auto=format&fit=crop" ]);
        ("rating", VFloat (47 # 10));
        ("review_count", VInt 126);
        ("eco_badge", VStr "Carbon Neutral");
        ("sustainability_features",
         VList [VStr "carbon-neutral"; VStr "recycled"]) ];
    list_to_map
      [ ("id", VStr "demo-2");
        ("title", VStr "TrailWave Recycled Fleece");
        ("price", VFloat (129 # 1));
        ("sale_price", VNone);
        ("currency", VStr "USD");
        ("category", VStr "Recycled Material Hiking Gear");
        ("images", VList
           [ VStr "https://images.unsplash.com/photo-1500530855697-b586d89ba3ee?q=80&w=1200&auto=format&fit=crop";
             VStr "https://images.unsplash.com/photo-1500534314209-a25ddb2bd429?q=80&w=1200&auto=format&fit=crop" ]);
        ("rating", VFloat (45 # 10));
        ("review_count", VInt 342);
        ("eco_badge", VStr "Recycled Materials");
        ("sustainability_features", VList [VStr "recycled"]) ];
    list_to_map
      [ ("id", VStr "demo-3");
        ("title", VStr "SunSpark Solar Charger");
        ("price", VFloat (99 # 1));
        ("sale_price", VFloat (89 # 1));
        ("currency", VStr "USD");
        ("category", VStr "Renewable Energy Outdoor Accessories");
        ("images", VList
           [ VStr "https://images.unsplash.com/photo-1500534315581-c1f6f8a91b9b?q=80&w=1200&auto=format&fit=crop";
             VStr "https://images.unsplash.com/photo-1469474968028-56623f02e42e?q=80&w=1200&auto=format&fit=crop" ]);
        ("rating", VFloat (42 # 10));
        ("review_count", VInt 88);
        ("eco_badge", VStr "Renewable Energy");
        ("sustainability_features", VList [VStr "renewable"]) ] ].

(** [if o: f = g(o, f)] for an [Optional[str]] argument. *)
Definition if_truthy (o : option string) (g : string → query → query)
    (f : query) : query :=
  match o with
  | Some s => if truthy o then g s f else f
  | None => f
  end.

(** The operator document [price_filter] of [list_products]. *)
Definition price_filter (min_price max_price : option Q) : gmap string value :=
  let price_filter : gmap string value := ∅ in
  let price_filter :=
    match min_price with
    | Some lo => <["$gte" := VFloat lo]> price_filter
    | None => price_filter
    end in
  match max_price with
  | Some hi => <["$lte" := VFloat hi]> price_filter
  | None => price_filter
  end.

(** The operator document of the free-text search on one field. *)
Definition regex_i (q : string) : gmap string value :=
  <["$options" := VStr "i"]> {["$regex" := VStr q]}.

(** The query document [list_products] builds from its filter arguments. *)
Definition filter_q (q category activity season sustainable : option string)
    (min_price max_price : option Q) : query :=
  let f : query := ∅ in
  let f := if_truthy q (λ q f,
    <["$or" := AnyOf [ {["title" := Ops (regex_i q)]};
                       {["description" := Ops (regex_i q)]} ]]> f) f in
  let f := if_truthy category (λ category f,
    <["category" := Field (Equals (VStr category))]> f) f in
  let f := if_truthy activity (λ activity f,
    <["activity_types" :=
        Field (Ops {["$in" := VList [VStr activity]]})]> f) f in
  let f := if_truthy season (λ season f,
    <["seasons" := Field (Ops {["$in" := VList [VStr season]]})]> f) f in
  let f := if_truthy sustainable (λ sustainable f,
    <["sustainability_features" :=
        Field (Ops {["$in" := VList [VStr sustainable]]})]> f) f in
  if bool_decide (is_Some min_price) || bool_decide (is_Some max_price) then
    <["price" := Field (Ops (price_filter min_price max_price))]> f
  else f.

(** The ordering [list_products] asks for. *)
Definition sort_spec (sort : option string) : option (list (string * Z)) :=
  if bool_decide (sort = Some "price_asc") then Some [("price", 1)]
  else if bool_decide (sort = Some "price_desc") then Some [("price", -1)]
  else if bool_decide (sort = Some "highest_rated") then Some [("rating", -1)]
  else None.

Section Handlers.
Variable regex_compile : string → string → option (string → bool).
Variable py_repr : value → string.
(** [bool(db)] on a configured handle: it counts as true, or the driver
    refuses the truth test and raises (as the driver does from its version
    4 on); a handle is never false. *)
Variable bool_db : database → result unit.
Variable int_of_str : string → option Z.
Variable float_of_str : string → option Q.
(** [database.get_documents(collection_name, filter_dict, limit)] *)
Variable get_documents : string → query → option Z → result (list doc).

(** [doc["id"] = str(doc.pop("_id"))] *)
Definition rename_id (d : doc) : result doc :=
  match d !! "_id" with
  | Some v => Ok (<["id" := VStr (str py_repr v)]> (delete "_id" d))
  | None => Raise (Exn "KeyError" "'_id'")
  end.

(** [item["id"] = str(item.pop("_id", ""))] *)
Definition rename_id_or_empty (d : doc) : doc :=
  <["id" := VStr (str py_repr (get d "_id" (VStr "")))]> (delete "_id" d).

(** [GET /api/products].  [db] is [None] when no store is configured;
    [if db] then takes the fallback branch without a truth test of its
    own, and puts a configured handle to [bool_db]. *)
Definition list_products (db : option database)
    (q category activity season sustainable : option string)
    (min_price max_price : option Q) (sort : option string)
    (page page_size : Z) : http ProductListResponse :=
  let filter_q :=
    filter_q q category activity season sustainable min_price max_price in
  let sort_spec := sort_spec sort in
  or_500
    match db with
    | None =>
        let start := (page - 1) * page_size in
        let stop := start + page_size in
        Ok {| items := slice demo_items start stop;
              total := Z.of_nat (length demo_items);
              page := page;
              page_size := page_size |}
    | Some db =>
        _ ← bool_db db;
        let collection := get_collection db "product" in
        let cursor := find collection filter_q in
        let cursor :=
          match sort_spec with
          | Some (key :: keys) => Mongo.sort cursor (key :: keys)
          | _ => cursor
          end in
        total ← count_documents regex_compile collection filter_q;
        cursor ← skip cursor ((page - 1) * page_size);
        let cursor := limit cursor page_size in
        docs ← run regex_compile cursor;
        items ← for_each rename_id docs;
        Ok {| items := items;
              total := total;
              page := page;
              page_size := page_size |}
    end.

(** The fixed figures [get_impact] falls back to. *)
Definition impact_fallback : ImpactResponse :=
  {| trees_planted := 128450;
     bottles_recycled := 9723450;
     carbon_offset_kg := 6543215 # 10 |}.

(** The body of the [try] block of [get_impact]: [Ok None] when it falls
    through without returning. *)
Definition read_impact : result (option ImpactResponse) :=
  docs ← get_documents "impactstats" ∅ (Some 1);
  match docs with
  | d :: _ =>
      trees ← int int_of_str (get d "trees_planted" (VInt 0));
      bottles ← int int_of_str (get d "bottles_recycled" (VInt 0));
      carbon ← float float_of_str (get d "carbon_offset_kg" (VFloat 0));
      Ok (Some {| trees_planted := trees;
                  bottles_recycled := bottles;
                  carbon_offset_kg := carbon |})
  | [] => Ok None
  end.

(** [GET /api/impact]: [except Exception: pass], then the fallback. *)
Definition get_impact : http ImpactResponse :=
  match read_impact with
  | Ok (Some r) => Response r
  | Ok None | Raise _ => Response impact_fallback
  end.

(** The query document of [get_reviews]. *)
Definition reviews_filter (product_id : string) (min_rating : option Z)
    : query :=
  let f : query := {["product_id" := Field (Equals (VStr product_id))]} in
  match min_rating with
  | Some r =>
      <["ratings.sustainability" := Field (Ops {["$gte" := VInt r]})]> f
  | None => f
  end.

(** [GET /api/reviews/{product_id}] *)
Definition get_reviews (product_id : string) (min_rating : option Z)
    : http (list doc) :=
  let filter_q := reviews_filter product_id min_rating in
  or_500
    (items ← get_documents "review" filter_q None;
     Ok (rename_id_or_empty <$> items) : result (list doc)).

End Handlers.

(** ** The diagnostic handler *)

(** What [test_database] sees of a database handle: its [name] attribute,
    when it has one, and what [list_collection_names()] does. *)
Record db_handle : Type := {
  db_name : option string;
  list_collection_names : result (list string)
}.

(** [s[:n]] on a string: its first [n] characters.  The text is held in
    UTF-8, where a byte [10xxxxxx] continues the character begun before
    it. *)
Definition continues (c : Ascii.ascii) : bool :=
  let b := Ascii.N_of_ascii c in ((128 <=? b) && (b <? 192))%N.

Fixpoint str_prefix (n : nat) (s : string) : string :=
  match s with
  | EmptyString => EmptyString
  | String c rest =>
      if continues c then String c (str_prefix n rest)
      else
        match n with
        | O => EmptyString
        | S n' => String c (str_prefix n' rest)
        end
  end.

(** [GET /test].  [import_db] is what [from database import db] yields, or
    the exception it raises; [getenv] is [os.getenv]. *)
Definition test_database (import_db : result (option db_handle))
    (getenv : string → option string) : doc :=
  let response : doc :=
    list_to_map [ ("backend", VStr "✅ Running");
                  ("database", VStr "❌ Not Available");
                  ("database_url", VNone);
                  ("database_name", VNone);
                  ("connection_status", VStr "Not Connected");
                  ("collections", VList []) ] in
  let response :=
    match import_db with
    | Ok (Some _db) =>
        let response := <["database" := VStr "✅ Available"]> response in
        let response := <["database_url" := VStr "✅ Configured"]> response in
        let response :=
          <["database_name" :=
              VStr (match db_name _db with
                    | Some name => name
                    | None => "✅ Connected"
                    end)]> response in
        let response := <["connection_status" := VStr "Connected"]> response in
        match list_collection_names _db with
        | Ok collections =>
            let response :=
              <["collections" := VList (VStr <$> slice collections 0 10)]>
                response in
            <["database" := VStr "✅ Connected & Working"]> response
        | Raise e =>
            <["database" :=
                VStr ("⚠️  Connected but Error: " +:+ str_prefix 50 (exn_msg e))]>
              response
        end
    | Ok None =>
        <["database" := VStr "⚠️  Available but not initialized"]> response
    | Raise e =>
        <["database" := VStr ("❌ Error: " +:+ str_prefix 50 (exn_msg e))]>
          response
    end in
  let response :=
    <["database_url" :=
        VStr (if truthy (getenv "DATABASE_URL") then "✅ Set" else "❌ Not Set")]>
      response in
  <["database_name" :=
      VStr (if truthy (getenv "DATABASE_NAME") then "✅ Set" else "❌ Not Set")]>
    response.

(** ** A small regular-expression engine

    Enough of the store's pattern language to run the handlers on concrete
    requests: a pattern made of literal characters and of the wildcard [.],
    searched anywhere in the subject, with the option [i] for
    case-insensitive matching.  Any other pattern is declined. *)

Module Regex.

Definition lower (c : Ascii.ascii) : Ascii.ascii :=
  let n := Ascii.N_of_ascii c in
  if ((65 <=? n) && (n <=? 90))%N then Ascii.ascii_of_N (n + 32) else c.

Definition is_meta (c : Ascii.ascii) : bool :=
  bool_decide (c ∈ String.list_ascii_of_string "\^$*+?()[]{}|").

(** One position of a pattern: a literal character, or [None] for [.]. *)
Fixpoint parse (pattern : string) : option (list (option Ascii.ascii)) :=
  match pattern with
  | EmptyString => Some []
  | String c rest =>
      if is_meta c then None
      else
        atoms ← parse rest;
        Some ((if Ascii.eqb c "."%char then None else Some c) :: atoms)
  end.

Definition atom_matches (fold : bool) (a : option Ascii.ascii)
    (c : Ascii.ascii) : bool :=
  match a with
  | None => negb (Ascii.eqb c "010"%char)
  | Some x => if fold then Ascii.eqb (lower x) (lower c) else Ascii.eqb x c
  end.

Fixpoint match_here (fold : bool) (atoms : list (option Ascii.ascii))
    (s : string) : bool :=
  match atoms, s with
  | [], _ => true
  | a :: atoms', String c s' =>
      atom_matches fold a c && match_here fold atoms' s'
  | _ :: _, EmptyString => false
  end.

Fixpoint search (fold : bool) (atoms : list (option Ascii.ascii)) (s : string)
    : bool :=
  match_here fold atoms s
  || match s with
     | String _ s' => search fold atoms s'
     | EmptyString => false
     end.

Definition compile (pattern options : string) : option (string → bool) :=
  atoms ← parse pattern;
  if String.eqb options "" then Some (search false atoms)
  else if String.eqb options "i" then Some (search true atoms)
  else None.

(** [needle] occurs in [s], letter case aside. *)
Definition contains_ci (needle s : string) : bool :=
  search true (Some <$> String.list_ascii_of_string needle) s.

End Regex.

(** ** Vocabulary of the statements *)

(** A stand-in for the interpreter's printer of floats and containers, to
    run the handlers on concrete documents; the runs below never reach it,
    their identifiers being strings or object ids. *)
Definition repr_unused : value → string := λ _, "".

(** A handle that counts as true, and one whose truth test raises as the
    driver's does from version 4 on. *)
Definition handle_passes : database → result unit := λ _, Ok ().

Definition handle_refuses : database → result unit := λ _,
  Raise (Exn "NotImplementedError"
           "Database objects do not implement truth value testing or bool()").

(** The documents a request gets back from the store, before their
    identifier is renamed. *)
Definition window (regex_compile : string → string → option (string → bool))
    (coll : collection) (f : query) (spec : option (list (string * Z)))
    (page page_size : Z) : list doc :=
  let found := matching regex_compile coll f in
  let ordered :=
    match spec with
    | Some (key :: keys) => merge_sort (le_docs (key :: keys)) found
    | _ => found
    end in
  let skipped := drop (Z.to_nat ((page - 1) * page_size)) ordered in
  if page_size =? 0 then skipped
  else take (Z.to_nat (Z.abs page_size)) skipped.

(** A search function finds a match in the text of a field: in the field
    itself when it is a string, or in a string element when it is an
    array. *)
Definition text_hit (search : string → bool) (v : value) : bool :=
  existsb (λ c, match c with VStr t => search t | _ => false end)
          (candidates v).

(** A string without pattern syntax: no metacharacter and no wildcard. *)
Definition plain (s : string) : Prop :=
  Forall (λ c, Regex.is_meta c = false ∧ c ≠ "."%char)
         (String.list_ascii_of_string s).

(** [l] is in ascending (descending) order of the field [k]: for every
    adjacent pair the value of the first is at most (at least) the value of
    the second. *)
Definition ascending (k : string) (l : list doc) : Prop :=
  ∀ i a b, l !! i = Some a → l !! S i = Some b →
           le_value (field a k) (field b k).

Definition descending (k : string) (l : list doc) : Prop :=
  ∀ i a b, l !! i = Some a → l !! S i = Some b →
           le_value (field b k) (field a k).

(** A small catalogue to run the handlers on. *)
Definition sample_db : database :=
  {[ "product" :=
       [ Stored (VObjectId "665f1c2ab1e4a90012ab34c1")
           (list_to_map [ ("title", VStr "Ridge Stove");
                          ("category", VStr "Cooking");
                          ("price", VFloat (59 # 1));
                          ("rating", VFloat (41 # 10)) ]);
         Stored (VObjectId "665f1c2ab1e4a90012ab34c2")
           (list_to_map [ ("title", VStr "Cork Trekking Poles");
                          ("category", VStr "Hiking");
                          ("price", VFloat (25 # 1));
                          ("rating", VFloat (48 # 10)) ]);
         Stored (VObjectId "665f1c2ab1e4a90012ab34c3")
           (list_to_map [ ("title", VStr "Hemp Daypack");
                          ("category", VStr "Hiking");
                          ("price", VFloat (120 # 1));
                          ("rating", VFloat (39 # 10)) ]) ] ]}.

(** [t] is the value of a field, or one of its elements when the field is
    an array: what the store asks of a field for [{"field": t}] and for
    [{"field": {"$in": [t]}}]. *)
Definition has_value (t v : value) : bool :=
  existsb (λ x, value_eqb x t) (candidates v).

(** A field of strings, as the schema has [activity_types], [seasons] and
    [sustainability_features]. *)
Definition string_list (l : list string) : value := VList (VStr <$> l).

(** An argument that is absent, or present and equal to the other request's:
    the first request asks no more than the second. *)
Definition weaker {A : Type} (truth : option A → bool) (o o' : option A)
    : Prop :=
  truth o = false ∨ o = o'.

(** What each argument of [list_products] asks of a document [d]: the
    free text, when given, that its pattern is accepted and finds a match
    in the title or in the description; [category], [activity], [season]
    and [sustainable], when given, that the field holds the value; the
    price bounds, when one is given, that the range document holds. *)
Definition meets_text (regex_compile : string → string → option (string → bool))
    (q : option string) (d : doc) : Prop :=
  ∀ t, q = Some t → t ≠ "" →
       ∃ search, regex_compile t "i" = Some search
                 ∧ (text_hit search (field d "title") = true
                    ∨ text_hit search (field d "description") = true).

Definition meets_value (o : option string) (k : string) (d : doc) : Prop :=
  ∀ t, o = Some t → t ≠ "" → has_value (VStr t) (field d k) = true.

Definition meets_price (regex_compile : string → string → option (string → bool))
    (min_price max_price : option Q) (d : doc) : Prop :=
  is_Some min_price ∨ is_Some max_price →
  cond_holds regex_compile (Ops (price_filter min_price max_price))
    (field d "price") = true.


(** The matching products in the order the request asks for. *)
Definition in_order (regex_compile : string → string → option (string → bool))
    (coll : collection) (f : query) (spec : option (list (string * Z)))
    : list doc :=
  match spec with
  | Some (key :: keys) =>
      merge_sort (le_docs (key :: keys)) (matching regex_compile coll f)
  | _ => matching regex_compile coll f
  end.

(** Neither a number, nor a boolean, nor a string: [int] and [float]
    raise [TypeError] on it. *)
Definition not_numeric (v : value) : Prop :=
  match v with
  | VNone | VObjectId _ | VList _ | VDict _ => True
  | _ => False
  end.

(** A product shaped as the schema has it, and records for the other two
    read paths, to run the handlers on. *)
Definition sample_product : doc :=
  list_to_map [ ("title", VStr "Cork Trekking Poles");
                ("category", VStr "Hiking");
                ("activity_types", string_list ["backpacking"; "trekking"]);
                ("seasons", string_list ["all-season"]);
                ("sustainability_features", string_list ["recycled"]);
                ("price", VFloat (25 # 1)) ].

Definition sample_impact : doc :=
  list_to_map [ ("trees_planted", VInt 12);
                ("carbon_offset_kg", VInt 40) ].

Definition sample_review : doc :=
  list_to_map [ ("_id", VObjectId "665f1c2ab1e4a90012ab34d1");
                ("product_id", VStr "665f1c2ab1e4a90012ab34c1");
                ("title", VStr "Kept me dry") ].

Definition sample_handle : db_handle :=
  {| db_name := Some "ecotrail";
     list_collection_names := Ok ["product"; "review"; "impactstats"] |}.

(** ** Paging of the fallback catalogue *)

Ltac case_ltb :=
  repeat match goal with
         | |- context [?a <? ?b] => destruct (Z.ltb_spec a b)
         end.

Lemma slice_index_range (len i : Z) :
  0 ≤ len → 0 ≤ slice_index len i ≤ len.
Proof. unfold slice_index. destruct (i <? 0) eqn:E; lia. Qed.

Lemma length_slice {A : Type} (l : list A) (start stop : Z) :
  Z.of_nat (length (slice l start stop))
  = Z.max 0 (slice_index (Z.of_nat (length l)) stop
             - slice_index (Z.of_nat (length l)) start).
Proof.
  unfold slice. rewrite length_take, length_drop.
  pose proof (slice_index_range (Z.of_nat (length l)) start).
  pose proof (slice_index_range (Z.of_nat (length l)) stop).
  lia.
Qed.

Lemma length_demo_items : length demo_items = 3%nat.
Proof. reflexivity. Qed.

Lemma nil_length_Z {A : Type} (l : list A) : l = [] ↔ Z.of_nat (length l) = 0.
Proof. destruct l; simpl; split; intros; try done; lia. Qed.

Section Fallback.
Variable regex_compile : string → string → option (string → bool).
Variable py_repr : value → string.
Variable bool_db : database → result unit.
Variables q category activity season sustainable : option string.
Variables min_price max_price : option Q.
Variable sort : option string.

(** Without a store the handler answers from [demo_items], whatever the
    filters and the sort mode. *)
Lemma list_products_fallback (page page_size : Z) :
  list_products regex_compile py_repr bool_db None q category activity season
    sustainable min_price max_price sort page page_size
  = Response {| items := slice demo_items ((page - 1) * page_size)
                           ((page - 1) * page_size + page_size);
                total := 3;
                page := page;
                page_size := page_size |}.
Proof. reflexivity. Qed.

(** C4: with no store configured, page 1 of size 12 is the three demo
    products, in order, with total 3, whatever the filter arguments (and
    the sort mode) are. *)
Theorem fallback_first_page :
  list_products regex_compile py_repr bool_db None q category activity season
    sustainable min_price max_price sort 1 12
  = Response {| items := demo_items; total := 3; page := 1; page_size := 12 |}
  ∧ length demo_items = 3%nat
  ∧ (λ d : doc, d !! "id") <$> demo_items
    = [Some (VStr "demo-1"); Some (VStr "demo-2"); Some (VStr "demo-3")].
Proof. split_and!; reflexivity. Qed.

(** C9, as the code has it: without a store and with [page_size ≥ 1], page 0
    is empty; a page below 0 is cut from the end of the catalogue and is
    empty exactly when [-page * page_size ≥ 3]; the total is 3 throughout. *)
Theorem fallback_nonpositive_page (page page_size : Z) :
  page ≤ 0 → 1 ≤ page_size →
  ∃ r,
    list_products regex_compile py_repr bool_db None q category activity season
      sustainable min_price max_price sort page page_size = Response r
    ∧ total r = 3
    ∧ (page = 0 → items r = [])
    ∧ (items r = [] ↔ page = 0 ∨ 3 ≤ - page * page_size).
Proof.
  intros Hp Hs. eexists. split; [apply list_products_fallback|]. simpl.
  split; [done|].
  rewrite !nil_length_Z, length_slice, length_demo_items.
  replace ((page - 1) * page_size + page_size) with (page * page_size) by ring.
  replace ((page - 1) * page_size) with (page * page_size - page_size) by ring.
  assert (Hm : page * page_size ≤ 0) by nia.
  assert (H0 : page = 0 ↔ page * page_size = 0) by nia.
  replace (- page * page_size) with (- (page * page_size)) by ring.
  revert Hm H0. generalize (page * page_size). intros m Hm H0.
  unfold slice_index. case_ltb; lia.
Qed.

End Fallback.

(** ** The query document and what it matches *)

Section Predicate.
Variable regex_compile : string → string → option (string → bool).

Lemma matches_empty (d : doc) : matches regex_compile ∅ d = true.
Proof. apply bool_decide_eq_true, map_Forall_empty. Qed.

(** The entries of a query are combined with AND. *)
Lemma matches_insert (f : query) (k : string) (cl : clause) (d : doc) :
  f !! k = None →
  matches regex_compile (<[k := cl]> f) d = true
  ↔ clause_holds regex_compile k cl d = true ∧ matches regex_compile f d = true.
Proof.
  intros Hk. unfold matches. rewrite !bool_decide_eq_true.
  by rewrite map_Forall_insert.
Qed.

Lemma compare_number (v : value) (x y : Q) :
  as_num v = Some x → compare_values v (VFloat y) = (x ?= y)%Q.
Proof. unfold compare_values. by intros ->. Qed.

Lemma gte_holds (ops : gmap string value) (lo x : Q) (v : value) :
  as_num v = Some x →
  op_holds regex_compile ops "$gte" (VFloat lo) v = true ↔ (lo <= x)%Q.
Proof.
  intros Hv. unfold op_holds; simpl.
  rewrite (compare_number _ _ _ Hv).
  destruct v; simplify_eq/=;
    rewrite orb_false_r, negb_true_iff, bool_decide_eq_false, <- Qlt_alt;
    (split; [apply Qnot_lt_le | apply Qle_not_lt]).
Qed.

Lemma lte_holds (ops : gmap string value) (hi x : Q) (v : value) :
  as_num v = Some x →
  op_holds regex_compile ops "$lte" (VFloat hi) v = true ↔ (x <= hi)%Q.
Proof.
  intros Hv. unfold op_holds; simpl.
  rewrite (compare_number _ _ _ Hv).
  destruct v; simplify_eq/=;
    rewrite orb_false_r, negb_true_iff, bool_decide_eq_false, <- Qgt_alt;
    (split; [apply Qnot_lt_le | apply Qle_not_lt]).
Qed.

(** On a numeric price the range document holds exactly inside the closed
    range; a missing bound leaves that side open. *)
Lemma price_filter_holds (min_price max_price : option Q) (v : value) (x : Q) :
  as_num v = Some x →
  cond_holds regex_compile (Ops (price_filter min_price max_price)) v = true
  ↔ (∀ lo, min_price = Some lo → (lo <= x)%Q)
    ∧ (∀ hi, max_price = Some hi → (x <= hi)%Q).
Proof.
  intros Hv. unfold cond_holds, price_filter. rewrite bool_decide_eq_true.
  destruct min_price as [lo|], max_price as [hi|].
  - rewrite map_Forall_insert by done. rewrite map_Forall_insert by done.
    rewrite (lte_holds _ _ _ _ Hv), (gte_holds _ _ _ _ Hv).
    split.
    + intros (? & ? & _). split; intros ? [= <-]; done.
    + intros [H1 H2]. split_and!; [by apply H2|by apply H1|apply map_Forall_empty].
  - rewrite map_Forall_insert by done. rewrite (gte_holds _ _ _ _ Hv). split.
    + intros [? _]. split; [by intros ? [= <-]|done].
    + intros [H1 _]. split; [by apply H1|apply map_Forall_empty].
  - rewrite map_Forall_insert by done. rewrite (lte_holds _ _ _ _ Hv). split.
    + intros [? _]. split; [done|by intros ? [= <-]].
    + intros [_ H2]. split; [by apply H2|apply map_Forall_empty].
  - split; [done|]. intros _. apply map_Forall_empty.
Qed.

End Predicate.

(** The price bounds only add the ["price"] entry to the query. *)
Lemma filter_q_price (q category activity season sustainable : option string)
    (min_price max_price : option Q) :
  filter_q q category activity season sustainable min_price max_price
  = if bool_decide (is_Some min_price) || bool_decide (is_Some max_price)
    then <["price" := Field (Ops (price_filter min_price max_price))]>
           (filter_q q category activity season sustainable None None)
    else filter_q q category activity season sustainable None None.
Proof. reflexivity. Qed.

Lemma if_truthy_false (o : option string) (g : string → query → query)
    (f : query) :
  truthy o = false → if_truthy o g f = f.
Proof. unfold if_truthy. destruct o; [by intros ->|done]. Qed.

Lemma if_truthy_lookup_ne (o : option string) (k' : string)
    (c : string → clause) (f : query) (k : string) :
  k ≠ k' → if_truthy o (λ s f, <[k' := c s]> f) f !! k = f !! k.
Proof.
  intros Hk. unfold if_truthy. destruct o; [|done].
  destruct (truthy _); [|done]. by rewrite lookup_insert_ne.
Qed.

Ltac skip_entries :=
  rewrite ?lookup_insert_ne by done; rewrite ?if_truthy_lookup_ne by done.

(** Which entries the query has, argument by argument. *)
Lemma filter_q_lookup (q category activity season sustainable : option string)
    (min_price max_price : option Q) :
  let f := filter_q q category activity season sustainable min_price max_price in
  (truthy q = false → f !! "$or" = None)
  ∧ (truthy category = false → f !! "category" = None)
  ∧ (truthy activity = false → f !! "activity_types" = None)
  ∧ (truthy season = false → f !! "seasons" = None)
  ∧ (truthy sustainable = false → f !! "sustainability_features" = None)
  ∧ (min_price = None → max_price = None → f !! "price" = None)
  ∧ (is_Some min_price ∨ is_Some max_price →
     f !! "price" = Some (Field (Ops (price_filter min_price max_price)))).
Proof.
  simpl. rewrite filter_q_price.
  assert (Hbase : filter_q q category activity season sustainable None None
                  !! "price" = None).
  { unfold filter_q. simpl. by skip_entries. }
  split_and!.
  1-5: intros H; destruct (_ || _); skip_entries;
       unfold filter_q; simpl; skip_entries;
       rewrite (if_truthy_false _ _ _ H); by skip_entries.
  - by intros -> ->.
  - intros H. destruct (_ || _) eqn:E; [by rewrite lookup_insert_eq|].
    apply orb_false_elim in E as [E1 E2].
    apply bool_decide_eq_false in E1, E2. by destruct H.
Qed.

Section FilterClaims.
Variable regex_compile : string → string → option (string → bool).
Variables q category activity season sustainable : option string.
Variables min_price max_price : option Q.

(** C6: an argument that is absent ([None], or the empty string for the
    text arguments) adds no entry to the query; when all are absent the
    query is empty and matches every document. *)
Theorem absent_parameters_add_no_constraint :
  let f := filter_q q category activity season sustainable min_price max_price in
  (truthy q = false → f !! "$or" = None)
  ∧ (truthy category = false → f !! "category" = None)
  ∧ (truthy activity = false → f !! "activity_types" = None)
  ∧ (truthy season = false → f !! "seasons" = None)
  ∧ (truthy sustainable = false → f !! "sustainability_features" = None)
  ∧ (min_price = None → max_price = None → f !! "price" = None)
  ∧ (truthy q = false → truthy category = false → truthy activity = false →
     truthy season = false → truthy sustainable = false →
     min_price = None → max_price = None →
     f = ∅ ∧ ∀ d : doc, matches regex_compile f d = true).
Proof.
  pose proof (filter_q_lookup q category activity season sustainable
                min_price max_price) as (H1 & H2 & H3 & H4 & H5 & H6 & _).
  simpl in *. split_and!; try done.
  intros Hq Hc Ha Hs Hsu -> ->.
  assert (filter_q q category activity season sustainable None None = ∅) as ->.
  { unfold filter_q. simpl. by rewrite !if_truthy_false. }
  split; [done|]. apply matches_empty.
Qed.

(** C7: the price bounds become one entry of the query, under ["price"],
    holding [$gte] and [$lte] as given; it is combined with the other
    entries by AND, and on a document with a numeric price it holds exactly
    when the price lies in the closed range, an omitted bound leaving its
    side open. *)
Theorem price_range_constraint :
  let f := filter_q q category activity season sustainable min_price max_price in
  let others := filter_q q category activity season sustainable None None in
  (is_Some min_price ∨ is_Some max_price →
   f = <["price" := Field (Ops (price_filter min_price max_price))]> others
   ∧ others !! "price" = None
   ∧ price_filter min_price max_price !! "$gte" = VFloat <$> min_price
   ∧ price_filter min_price max_price !! "$lte" = VFloat <$> max_price
   ∧ ∀ k, k ≠ "$gte" → k ≠ "$lte" →
          price_filter min_price max_price !! k = None)
  ∧ (∀ (d : doc) (x : Q), as_num (field d "price") = Some x →
       matches regex_compile f d = true
       ↔ matches regex_compile others d = true
         ∧ (∀ lo, min_price = Some lo → (lo <= x)%Q)
         ∧ (∀ hi, max_price = Some hi → (x <= hi)%Q))
  ∧ (∀ (d : doc) (x lo hi : Q),
       min_price = Some lo → max_price = Some hi → (lo <= hi)%Q →
       as_num (field d "price") = Some x →
       matches regex_compile f d = true → (lo <= x)%Q ∧ (x <= hi)%Q).
Proof.
  simpl.
  pose proof (filter_q_lookup q category activity season sustainable
                None None) as (_ & _ & _ & _ & _ & Hbase & _).
  simpl in Hbase. specialize (Hbase eq_refl eq_refl).
  assert (Hiff : ∀ (d : doc) (x : Q), as_num (field d "price") = Some x →
    matches regex_compile
      (filter_q q category activity season sustainable min_price max_price) d
    = true
    ↔ matches regex_compile
        (filter_q q category activity season sustainable None None) d = true
      ∧ (∀ lo, min_price = Some lo → (lo <= x)%Q)
      ∧ (∀ hi, max_price = Some hi → (x <= hi)%Q)).
  { intros d x Hx. rewrite filter_q_price.
    destruct (_ || _) eqn:E.
    - rewrite matches_insert by done. unfold clause_holds.
      rewrite (price_filter_holds _ _ _ _ _ Hx). tauto.
    - apply orb_false_elim in E as [E1 E2].
      apply bool_decide_eq_false in E1, E2.
      destruct min_price; [exfalso; by apply E1|].
      destruct max_price; [exfalso; by apply E2|].
      split; [intros ?; split_and!; done | by intros [? _]]. }
  split_and!; [|done|].
  - intros Hsome. rewrite filter_q_price.
    assert (bool_decide (is_Some min_price) || bool_decide (is_Some max_price)
            = true) as ->.
    { apply orb_true_iff. destruct Hsome; [left|right]; by apply bool_decide_eq_true. }
    split_and!; [done|done| | |].
    + unfold price_filter. destruct min_price, max_price; by simplify_map_eq.
    + unfold price_filter. destruct min_price, max_price; by simplify_map_eq.
    + intros k ? ?. unfold price_filter.
      destruct min_price, max_price; by simplify_map_eq.
  - intros d x lo hi Hlo Hhi _ Hx Hm.
    apply (Hiff d x Hx) in Hm as (_ & H1 & H2). split; [by apply H1|by apply H2].
Qed.

End FilterClaims.

(** ** Ordering of documents *)

Lemma compare_values_antisym (a b : value) :
  compare_values b a = CompOpp (compare_values a b).
Proof.
  unfold compare_values.
  destruct a, b; simpl;
    first [done | by rewrite Qcompare_antisym | apply String.compare_antisym].
Qed.

Lemma compare_docs_antisym (spec : list (string * Z)) (a b : doc) :
  compare_docs spec b a = CompOpp (compare_docs spec a b).
Proof.
  induction spec as [|[k dir] spec IH]; simpl; [done|].
  rewrite (compare_values_antisym (field a k) (field b k)).
  destruct (dir <? 0), (compare_values (field a k) (field b k)); simpl;
    done || apply IH.
Qed.

#[global] Instance le_docs_total (spec : list (string * Z)) :
  Total (le_docs spec).
Proof.
  intros a b. unfold le_docs. rewrite (compare_docs_antisym spec a b).
  destruct (compare_docs spec a b); simpl; [left|left|right]; done.
Qed.

Lemma le_docs_ascending (k : string) (a b : doc) :
  le_docs [(k, 1)] a b → le_value (field a k) (field b k).
Proof.
  unfold le_docs, le_value. simpl.
  by destruct (compare_values (field a k) (field b k)).
Qed.

Lemma le_docs_descending (k : string) (a b : doc) :
  le_docs [(k, -1)] a b → le_value (field b k) (field a k).
Proof.
  unfold le_docs, le_value. simpl.
  rewrite (compare_values_antisym (field a k) (field b k)).
  by destruct (compare_values (field a k) (field b k)).
Qed.

(** On numbers the store's order is the numeric one. *)
Lemma le_value_float (x y : Q) : le_value (VFloat x) (VFloat y) ↔ (x <= y)%Q.
Proof. unfold le_value, compare_values. simpl. symmetry. apply Qle_alt. Qed.

Section SortedLists.
Context {A : Type} (R : relation A).

Lemma Sorted_drop (n : nat) (l : list A) : Sorted R l → Sorted R (drop n l).
Proof.
  revert l. induction n as [|n IH]; intros [|x l] H; simpl; try done.
  apply IH. by inversion H.
Qed.

Lemma Sorted_take (n : nat) (l : list A) : Sorted R l → Sorted R (take n l).
Proof.
  revert n. induction l as [|x l IH]; intros [|n] H; simpl; try by constructor.
  inversion H as [|? ? Hl Hhd]; subst. constructor; [by apply IH|].
  destruct n, Hhd; simpl; by constructor.
Qed.

Lemma Sorted_adjacent (l : list A) (i : nat) (a b : A) :
  Sorted R l → l !! i = Some a → l !! S i = Some b → R a b.
Proof.
  revert i. induction l as [|x l IH]; intros i H Ha Hb; [done|].
  inversion H as [|? ? Hl Hhd]; subst. destruct i as [|i]; simpl in *.
  - simplify_eq. destruct l; simplify_eq/=. by inversion Hhd.
  - by eapply IH.
Qed.

End SortedLists.

(** ** The store-backed listing *)

Section Listing.
Variable regex_compile : string → string → option (string → bool).
Variable py_repr : value → string.
Variable bool_db : database → result unit.

Lemma if_truthy_Forall (P : string → clause → Prop) (o : option string)
    (k : string) (c : string → clause) (f : query) :
  map_Forall P f →
  (∀ s, o = Some s → s ≠ "" → P k (c s)) →
  map_Forall P (if_truthy o (λ s f, <[k := c s]> f) f).
Proof.
  intros Hf Hc. unfold if_truthy. destruct o as [s|]; [|done]. simpl.
  destruct (String.eqb_spec s ""); simpl; [done|].
  apply map_Forall_insert_2; [by apply Hc|done].
Qed.

Lemma price_filter_valid (min_price max_price : option Q) :
  cond_valid regex_compile (Ops (price_filter min_price max_price)) = true.
Proof.
  unfold cond_valid, price_filter. apply bool_decide_eq_true.
  destruct min_price, max_price;
    repeat (apply map_Forall_insert_2; [reflexivity|]); apply map_Forall_empty.
Qed.

Lemma regex_i_valid (s : string) :
  is_Some (regex_compile s "i") →
  cond_valid regex_compile (Ops (regex_i s)) = true.
Proof.
  intros Hs. unfold cond_valid, regex_i. apply bool_decide_eq_true.
  apply map_Forall_insert_2; [reflexivity|].
  apply map_Forall_singleton. unfold op_valid. simpl.
  by apply bool_decide_eq_true.
Qed.

(** The store accepts the query of [list_products] as soon as it accepts
    the free-text argument as a pattern. *)
Lemma filter_q_valid (q category activity season sustainable : option string)
    (min_price max_price : option Q) :
  (∀ s, q = Some s → s ≠ "" → is_Some (regex_compile s "i")) →
  valid regex_compile
    (filter_q q category activity season sustainable min_price max_price)
  = true.
Proof.
  intros Hq. unfold valid. apply bool_decide_eq_true.
  rewrite filter_q_price.
  assert (map_Forall (λ k cl, clause_valid regex_compile k cl = true)
            (filter_q q category activity season sustainable None None)) as Hb.
  { unfold filter_q. simpl.
    repeat (apply if_truthy_Forall; [|intros; simpl; try reflexivity]).
    - apply map_Forall_empty.
    - unfold fields_valid.
      rewrite !andb_true_r, andb_true_iff, !bool_decide_eq_true.
      rewrite !map_Forall_singleton. split; apply regex_i_valid; eauto. }
  destruct (_ || _); [|done].
  apply map_Forall_insert_2; [|done]. simpl. apply price_filter_valid.
Qed.

Lemma rename_id_present (d : doc) :
  is_Some (d !! "_id") →
  rename_id py_repr d = Ok (rename_id_or_empty py_repr d).
Proof. intros [v Hv]. unfold rename_id, rename_id_or_empty, get. by rewrite Hv. Qed.

Lemma for_each_rename_id (l : list doc) :
  Forall (λ d : doc, is_Some (d !! "_id")) l →
  for_each (rename_id py_repr) l = Ok (rename_id_or_empty py_repr <$> l).
Proof.
  induction 1 as [|d l Hd _ IH]; simpl; [done|].
  by rewrite (rename_id_present d Hd), IH.
Qed.

Lemma matching_has_id (coll : collection) (f : query) :
  Forall (λ d : doc, is_Some (d !! "_id")) (matching regex_compile coll f).
Proof.
  unfold matching. apply Forall_forall. intros d Hd.
  apply list_elem_of_filter in Hd as [_ Hd].
  apply list_elem_of_fmap in Hd as (s & -> & _).
  unfold as_dict. rewrite lookup_insert_eq. eauto.
Qed.

Lemma window_has_id (coll : collection) (f : query)
    (spec : option (list (string * Z))) (page page_size : Z) :
  Forall (λ d : doc, is_Some (d !! "_id"))
    (window regex_compile coll f spec page page_size).
Proof.
  unfold window.
  assert (Forall (λ d : doc, is_Some (d !! "_id"))
            match spec with
            | Some (key :: keys) =>
                merge_sort (le_docs (key :: keys)) (matching regex_compile coll f)
            | _ => matching regex_compile coll f
            end) as H.
  { destruct spec as [[|key keys]|]; try apply matching_has_id.
    rewrite merge_sort_Permutation. apply matching_has_id. }
  destruct (page_size =? 0); [|apply Forall_take]; by apply Forall_drop.
Qed.

Lemma length_window (coll : collection) (f : query)
    (spec : option (list (string * Z))) (page page_size : Z) :
  0 ≤ (page - 1) * page_size → 1 ≤ page_size →
  Z.of_nat (length (window regex_compile coll f spec page page_size))
  = Z.min page_size
      (Z.max 0 (Z.of_nat (length (matching regex_compile coll f))
                - (page - 1) * page_size)).
Proof.
  intros Hskip Hsize. unfold window.
  destruct (Z.eqb_spec page_size 0) as [|_]; [lia|].
  rewrite length_take, length_drop.
  assert (length match spec with
                 | Some (key :: keys) =>
                     merge_sort (le_docs (key :: keys))
                       (matching regex_compile coll f)
                 | _ => matching regex_compile coll f
                 end
          = length (matching regex_compile coll f)) as ->.
  { destruct spec as [[|key keys]|]; try done.
    by rewrite merge_sort_Permutation. }
  lia.
Qed.

(** What the handler answers on the store-backed path: the handle must
    pass the truth test, the store accept the query, [skip] its argument,
    and the driver encode the window. *)
Lemma list_products_store (db : database)
    (q category activity season sustainable : option string)
    (min_price max_price : option Q) (sort : option string)
    (page page_size : Z) :
  let the_query :=
    filter_q q category activity season sustainable min_price max_price in
  list_products regex_compile py_repr bool_db (Some db) q category activity
    season sustainable min_price max_price sort page page_size
  = match bool_db db with
    | Raise e => HTTPException 500 (exn_msg e)
    | Ok _ =>
        if valid regex_compile the_query then
          if (page - 1) * page_size <? 0
          then HTTPException 500 "skip must be >= 0"
          else if encodable ((page - 1) * page_size)
                  && encodable (Z.abs page_size)
          then
            Response
              {| items := rename_id_or_empty py_repr
                          <$> window regex_compile
                                (get_collection db "product") the_query
                                (sort_spec sort) page page_size;
                 total := Z.of_nat (length (matching regex_compile
                                              (get_collection db "product")
                                              the_query));
                 page := page;
                 page_size := page_size |}
          else HTTPException 500 "MongoDB can only handle up to 8-byte ints"
        else HTTPException 500 "the query document is rejected"
    end.
Proof.
  intros the_query. unfold list_products, count_documents, skip.
  fold the_query. destruct (bool_db db) as [[]|e]; simpl; [|done].
  destruct (valid regex_compile the_query) eqn:Hv; simpl; [|done].
  destruct (_ <? 0) eqn:Hs; simpl; [done|].
  pose proof (window_has_id (get_collection db "product") the_query
                (sort_spec sort) page page_size) as Hid.
  unfold run, window in *.
  destruct (sort_spec sort) as [[|key keys]|]; simpl in *; rewrite Hv;
    (destruct (encodable _ && encodable _); simpl; [|done]);
    by rewrite for_each_rename_id.
Qed.

(** An answered store-backed listing: the handle passed the truth test,
    the store accepted the query, the offset was not negative, and the
    response is the window of the matches with identifiers renamed. *)
Lemma list_products_store_inv (db : database)
    (q category activity season sustainable : option string)
    (min_price max_price : option Q) (sort : option string)
    (page page_size : Z) (r : ProductListResponse) :
  let the_query :=
    filter_q q category activity season sustainable min_price max_price in
  list_products regex_compile py_repr bool_db (Some db) q category activity
    season sustainable min_price max_price sort page page_size = Response r →
  valid regex_compile the_query = true
  ∧ 0 ≤ (page - 1) * page_size
  ∧ r = {| items := rename_id_or_empty py_repr
                    <$> window regex_compile (get_collection db "product")
                          the_query (sort_spec sort) page page_size;
           total := Z.of_nat (length (matching regex_compile
                                        (get_collection db "product")
                                        the_query));
           page := page;
           page_size := page_size |}.
Proof.
  intros the_query. rewrite list_products_store. fold the_query.
  destruct (bool_db db); [|done]. destruct (valid _ _); [|done].
  destruct (Z.ltb_spec ((page - 1) * page_size) 0); [done|].
  destruct (_ && _); [|done]. by intros [= <-].
Qed.

Lemma list_products_store_passes (db : database)
    (q category activity season sustainable : option string)
    (min_price max_price : option Q) (sort : option string)
    (page page_size : Z) (r : ProductListResponse) :
  list_products regex_compile py_repr bool_db (Some db) q category activity
    season sustainable min_price max_price sort page page_size = Response r →
  bool_db db = Ok ().
Proof.
  rewrite list_products_store. by destruct (bool_db db) as [[]|e].
Qed.

End Listing.

(** ** Properties of the handlers *)

Section ListingClaims.
Variable regex_compile : string → string → option (string → bool).
Variable py_repr : value → string.
Variable bool_db : database → result unit.

(** C2, as the code has it: the total is [N] whenever a listing is
    answered, and for [page ≥ 1] the response holds
    [min(page_size, max(0, N - (page-1)*page_size))] items.  Without a
    store [N = 3], the listing is always answered and [page_size ≥ 0] is
    enough for the count; with a store [N] is the number of stored products
    the query matches, the statement is about the listings that are
    answered, and [page_size ≥ 1] is needed for the count. *)
Theorem page_window_count
    (q category activity season sustainable : option string)
    (min_price max_price : option Q) (sort : option string)
    (page page_size : Z) :
  (∃ r,
     list_products regex_compile py_repr bool_db None q category activity
       season sustainable min_price max_price sort page page_size
     = Response r
     ∧ total r = 3
     ∧ (1 ≤ page → 0 ≤ page_size →
        Z.of_nat (length (items r))
        = Z.min page_size (Z.max 0 (3 - (page - 1) * page_size))))
  ∧ (∀ (db : database) (r : ProductListResponse),
       let N := Z.of_nat (length (matching regex_compile
                  (get_collection db "product")
                  (filter_q q category activity season sustainable
                     min_price max_price))) in
       list_products regex_compile py_repr bool_db (Some db) q category
         activity season sustainable min_price max_price sort page page_size
       = Response r →
       total r = N
       ∧ (1 ≤ page → 1 ≤ page_size →
          Z.of_nat (length (items r))
          = Z.min page_size (Z.max 0 (N - (page - 1) * page_size)))).
Proof.
  split.
  - eexists. split; [apply list_products_fallback|]. simpl.
    split; [done|]. intros Hpage Hsize.
    rewrite length_slice, length_demo_items.
    assert (0 ≤ (page - 1) * page_size) as Hskip by nia.
    revert Hskip. generalize ((page - 1) * page_size). intros k Hk.
    unfold slice_index. case_ltb; lia.
  - intros db r N Hr.
    apply list_products_store_inv in Hr as (_ & Hskip & ->). simpl.
    split; [done|]. intros Hpage Hsize.
    rewrite length_fmap. by apply length_window.
Qed.

(** C8: [price_asc] resolves to price ascending, [price_desc] to price
    descending, [highest_rated] to rating descending, every other mode
    (and the default) to no ordering, in which case the items come in the
    store's own order; whenever the store-backed listing answers, its items
    are in the order asked for, adjacent pair by adjacent pair; on numbers
    that order is the numeric one. *)
Theorem sort_modes
    (q category activity season sustainable : option string)
    (min_price max_price : option Q) (page page_size : Z) (db : database) :
  sort_spec (Some "price_asc") = Some [("price", 1)]
  ∧ sort_spec (Some "price_desc") = Some [("price", -1)]
  ∧ sort_spec (Some "highest_rated") = Some [("rating", -1)]
  ∧ (∀ s, s ∈ ["relevance"; "newest"; "best_sellers"; "most_sustainable"] →
          sort_spec (Some s) = None)
  ∧ sort_spec (bind_sort None) = None
  ∧ (∀ sort r,
       sort_spec sort = None →
       list_products regex_compile py_repr bool_db (Some db) q category activity
         season sustainable min_price max_price sort page page_size
       = Response r →
       items r
       = rename_id_or_empty py_repr
         <$> window regex_compile (get_collection db "product")
               (filter_q q category activity season sustainable
                  min_price max_price) None page page_size)
  ∧ (∀ r,
       list_products regex_compile py_repr bool_db (Some db) q category activity
         season sustainable min_price max_price (Some "price_asc")
         page page_size = Response r →
       ascending "price" (items r))
  ∧ (∀ r,
       list_products regex_compile py_repr bool_db (Some db) q category activity
         season sustainable min_price max_price (Some "price_desc")
         page page_size = Response r →
       descending "price" (items r))
  ∧ (∀ r,
       list_products regex_compile py_repr bool_db (Some db) q category activity
         season sustainable min_price max_price (Some "highest_rated")
         page page_size = Response r →
       descending "rating" (items r))
  ∧ (∀ x y : Q, le_value (VFloat x) (VFloat y) ↔ (x <= y)%Q).
Proof.
  assert (Hinv : ∀ sort r,
    list_products regex_compile py_repr bool_db (Some db) q category activity
      season sustainable min_price max_price sort page page_size
    = Response r →
    items r
    = rename_id_or_empty py_repr
      <$> window regex_compile (get_collection db "product")
            (filter_q q category activity season sustainable
               min_price max_price) (sort_spec sort) page page_size).
  { intros sort r Hr.
    by apply list_products_store_inv in Hr as (_ & _ & ->). }
  assert (Hfield : ∀ (k : string) (d : doc), k ≠ "id" → k ≠ "_id" →
    field (rename_id_or_empty py_repr d) k = field d k).
  { intros k d ? ?. unfold field, get, rename_id_or_empty.
    by rewrite lookup_insert_ne, lookup_delete_ne. }
  assert (Hsorted : ∀ key keys,
    Sorted (le_docs (key :: keys))
      (window regex_compile (get_collection db "product")
         (filter_q q category activity season sustainable min_price max_price)
         (Some (key :: keys)) page page_size)).
  { intros key keys. unfold window.
    destruct (page_size =? 0); [|apply Sorted_take];
      apply Sorted_drop, Sorted_merge_sort, _. }
  split_and!; try reflexivity; try apply le_value_float.
  - intros s Hs. repeat (apply elem_of_cons in Hs as [->|Hs]; [done|]).
    by apply elem_of_nil in Hs.
  - intros sort r Hnone Hr. rewrite (Hinv _ _ Hr), Hnone. done.
  - intros r Hr i a b. rewrite (Hinv _ _ Hr). rewrite !list_lookup_fmap.
    intros Ha Hb.
    apply fmap_Some in Ha as (a' & Ha & ->), Hb as (b' & Hb & ->).
    rewrite !Hfield by done.
    apply le_docs_ascending, (Sorted_adjacent _ _ _ _ _ (Hsorted _ _) Ha Hb).
  - intros r Hr i a b. rewrite (Hinv _ _ Hr). rewrite !list_lookup_fmap.
    intros Ha Hb.
    apply fmap_Some in Ha as (a' & Ha & ->), Hb as (b' & Hb & ->).
    rewrite !Hfield by done.
    apply le_docs_descending, (Sorted_adjacent _ _ _ _ _ (Hsorted _ _) Ha Hb).
  - intros r Hr i a b. rewrite (Hinv _ _ Hr). rewrite !list_lookup_fmap.
    intros Ha Hb.
    apply fmap_Some in Ha as (a' & Ha & ->), Hb as (b' & Hb & ->).
    rewrite !Hfield by done.
    apply le_docs_descending, (Sorted_adjacent _ _ _ _ _ (Hsorted _ _) Ha Hb).
Qed.

End ListingClaims.

Section ImpactAndReviews.
Variable py_repr : value → string.
Variable int_of_str : string → option Z.
Variable float_of_str : string → option Q.
Variable get_documents : string → query → option Z → result (list doc).

(** C5: [get_impact] always answers, never with an error; when the read
    raises, whatever the exception, or returns no record, the answer is the
    fixed fallback record. *)
Theorem impact_never_fails :
  (∃ r, get_impact int_of_str float_of_str get_documents = Response r)
  ∧ ((∃ e, get_documents "impactstats" ∅ (Some 1) = Raise e)
     ∨ get_documents "impactstats" ∅ (Some 1) = Ok [] →
     get_impact int_of_str float_of_str get_documents
     = Response {| trees_planted := 128450;
                   bottles_recycled := 9723450;
                   carbon_offset_kg := 6543215 # 10 |}).
Proof.
  unfold get_impact. split.
  - destruct (read_impact _ _ _) as [[r|]|e]; eauto.
  - unfold read_impact. intros [[e ->]| ->]; reflexivity.
Qed.

(** Renaming leaves every field other than ["id"] and ["_id"] as it was. *)
Lemma rename_id_or_empty_other (d : doc) (k : string) :
  k ≠ "id" → k ≠ "_id" → rename_id_or_empty py_repr d !! k = d !! k.
Proof.
  intros ? ?. unfold rename_id_or_empty.
  by rewrite lookup_insert_ne, lookup_delete_ne.
Qed.

Lemma rename_id_or_empty_missing (d : doc) :
  d !! "_id" = None → rename_id_or_empty py_repr d = <["id" := VStr ""]> d.
Proof.
  intros Hd. unfold rename_id_or_empty, get. rewrite Hd. simpl.
  by rewrite delete_id.
Qed.

(** C10: when the store hands reviews over, [get_reviews] answers with one
    item per review; a review without ["_id"] raises nothing and comes out
    as itself with ["id"] set to the empty string, every other field
    unchanged. *)
Theorem reviews_without_id (product_id : string) (min_rating : option Z)
    (found : list doc) :
  get_documents "review" (reviews_filter product_id min_rating) None
  = Ok found →
  ∃ out,
    get_reviews py_repr get_documents product_id min_rating = Response out
    ∧ length out = length found
    ∧ ∀ (i : nat) (item : doc),
        found !! i = Some item → item !! "_id" = None →
        out !! i = Some (<["id" := VStr ""]> item)
        ∧ (<["id" := VStr ""]> item : doc) !! "id" = Some (VStr "")
        ∧ (<["id" := VStr ""]> item : doc) !! "_id" = None
        ∧ ∀ k, k ≠ "id" → (<["id" := VStr ""]> item : doc) !! k = item !! k.
Proof.
  intros Hfound. unfold get_reviews. rewrite Hfound. simpl.
  eexists. split; [done|]. split; [by rewrite length_fmap|].
  intros i item Hi Hid. rewrite list_lookup_fmap, Hi. simpl.
  rewrite (rename_id_or_empty_missing _ Hid). split_and!.
  - done.
  - by rewrite lookup_insert_eq.
  - by rewrite lookup_insert_ne.
  - intros k Hk. by rewrite lookup_insert_ne.
Qed.

End ImpactAndReviews.

(** ** The free-text search *)

(** The free-text argument is handed to [$regex] as it is. *)
Lemma filter_q_free_text (s : string) :
  s ≠ "" →
  filter_q (Some s) None None None None None None
  = {["$or" := AnyOf [ {["title" := Ops (regex_i s)]};
                       {["description" := Ops (regex_i s)]} ]]}.
Proof.
  intros Hs. unfold filter_q, if_truthy. simpl.
  by destruct (String.eqb_spec s "").
Qed.

Section FreeText.
Variable regex_compile : string → string → option (string → bool).

Lemma regex_i_holds (s : string) (search : string → bool) (v : value) :
  regex_compile s "i" = Some search →
  cond_holds regex_compile (Ops (regex_i s)) v = true
  ↔ text_hit search v = true.
Proof.
  intros Hs. unfold cond_holds, regex_i. rewrite bool_decide_eq_true.
  rewrite map_Forall_insert by done. rewrite map_Forall_singleton.
  unfold op_holds at 2. simpl. unfold regex_options.
  rewrite lookup_insert_eq, Hs. unfold text_hit.
  split; [by intros [_ ?]|by split].
Qed.

Lemma fields_hold_singleton (k : string) (c : cond) (d : doc) :
  fields_hold regex_compile {[k := c]} d = true
  ↔ cond_holds regex_compile c (field d k) = true.
Proof.
  unfold fields_hold. by rewrite bool_decide_eq_true, map_Forall_singleton.
Qed.

(** What the code's free-text query matches: the documents in whose title
    or description the pattern [s] finds a match. *)
Lemma free_text_matches (s : string) (search : string → bool) (d : doc) :
  s ≠ "" → regex_compile s "i" = Some search →
  matches regex_compile (filter_q (Some s) None None None None None None) d
  = true
  ↔ text_hit search (field d "title") = true
    ∨ text_hit search (field d "description") = true.
Proof.
  intros Hne Hs. rewrite (filter_q_free_text s Hne).
  unfold matches. rewrite bool_decide_eq_true, map_Forall_singleton.
  unfold clause_holds. simpl. rewrite orb_false_r, orb_true_iff.
  rewrite !fields_hold_singleton.
  by rewrite !(regex_i_holds s search _ Hs).
Qed.

End FreeText.

Lemma parse_plain (s : string) :
  plain s → Regex.parse s = Some (Some <$> String.list_ascii_of_string s).
Proof.
  unfold plain. induction s as [|c s IH]; simpl; [done|].
  intros H. apply Forall_cons in H as [[Hmeta Hdot] H].
  rewrite Hmeta, (IH H). simpl.
  by destruct (Ascii.eqb_spec c "."%char).
Qed.

(** On a string without pattern syntax the search is the case-insensitive
    substring test. *)
Lemma compile_plain (s : string) :
  plain s → Regex.compile s "i" = Some (Regex.contains_ci s).
Proof. intros H. unfold Regex.compile. by rewrite (parse_plain s H). Qed.

Lemma free_text_plain (s : string) (d : doc) :
  plain s → s ≠ "" →
  matches Regex.compile (filter_q (Some s) None None None None None None) d
  = true
  ↔ text_hit (Regex.contains_ci s) (field d "title") = true
    ∨ text_hit (Regex.contains_ci s) (field d "description") = true.
Proof. intros Hp Hne. by apply free_text_matches, compile_plain. Qed.

(** ** The handlers on concrete requests *)

Example regex_literal_any_case :
  (search ← Regex.compile "tent" "i"; Some (search "Evergreen Ultralight Tent"))
  = Some true.
Proof. reflexivity. Qed.

Example regex_literal_miss :
  (search ← Regex.compile "stove" "i"; Some (search "Evergreen Ultralight Tent"))
  = Some false.
Proof. reflexivity. Qed.

Example regex_declines_group : Regex.compile "(" "i" = None.
Proof. reflexivity. Qed.

(** Requests the store-backed path does not answer, or answers outside
    the count of [page_window_count]: a free-text argument the store
    rejects, a page below 1, a handle that refuses the truth test, a page
    size the driver cannot encode, a page size of 0. *)
Example store_rejects_pattern :
  list_products Regex.compile repr_unused handle_passes
      (Some sample_db) (Some "(") None
    None None None None None (Some "relevance") 1 12
  = HTTPException 500 "the query document is rejected".
Proof. vm_compute. reflexivity. Qed.

Example store_page_zero :
  list_products Regex.compile repr_unused handle_passes
      (Some sample_db) None None None
    None None None None (Some "relevance") 0 1
  = HTTPException 500 "skip must be >= 0".
Proof. vm_compute. reflexivity. Qed.

Example store_handle_refuses_truth_test :
  list_products Regex.compile repr_unused handle_refuses (Some sample_db)
    None None None None None None None (Some "relevance") 1 12
  = HTTPException 500
      "Database objects do not implement truth value testing or bool()".
Proof. vm_compute. reflexivity. Qed.

Example store_page_size_beyond_eight_bytes :
  list_products Regex.compile repr_unused handle_passes (Some sample_db)
    None None None None None None None (Some "relevance") 1 (2 ^ 63)
  = HTTPException 500 "MongoDB can only handle up to 8-byte ints".
Proof. vm_compute. reflexivity. Qed.

Example store_page_size_zero :
  ∃ r,
    list_products Regex.compile repr_unused handle_passes
        (Some sample_db) None None None
      None None None None (Some "relevance") 1 0 = Response r
    ∧ length (items r) = 3%nat ∧ total r = 3.
Proof. eexists. split_and!; [vm_compute; reflexivity|done|done]. Qed.

(** C1, on the code: a [sort] token outside the declared set is bound like
    any other string, resolves to no ordering, and the listing is produced. *)
Theorem unrecognized_sort_is_served :
("cheapest" ∉ sort_enum)
  ∧ bind_sort (Some "cheapest") = Some "cheapest"
  ∧ sort_spec (Some "cheapest") = None
  ∧ list_products Regex.compile repr_unused handle_passes
      None None None None None None
      None None (bind_sort (Some "cheapest")) 1 12
    = Response {| items := demo_items; total := 3; page := 1; page_size := 12 |}
  ∧ ∃ r,
      list_products Regex.compile repr_unused handle_passes
          (Some sample_db) None None None
        None None None None (bind_sort (Some "cheapest")) 1 12
      = Response r
      ∧ total r = 3
      ∧ (λ d : doc, d !! "title") <$> items r
        = [Some (VStr "Ridge Stove"); Some (VStr "Cork Trekking Poles");
           Some (VStr "Hemp Daypack")].
Proof.
  split_and!; try reflexivity.
  - unfold sort_enum. intros H. by repeat (apply elem_of_cons in H as [?|H]);
      [..|apply elem_of_nil in H].
  - eexists. split_and!; [vm_compute; reflexivity|reflexivity|reflexivity].
Qed.

(** C3, on the code: the free-text argument [.] is read as a pattern, so
    the query matches a product whose title is "Tent" and which has no
    description, although [.] occurs in neither. *)
Theorem free_text_is_read_as_pattern :
  let d : doc := {["title" := VStr "Tent"]} in
  filter_q (Some ".") None None None None None None
  = {["$or" := AnyOf [ {["title" := Ops (regex_i ".")]};
                       {["description" := Ops (regex_i ".")]} ]]}
  ∧ matches Regex.compile
      (filter_q (Some ".") None None None None None None) d = true
  ∧ d !! "description" = None
  ∧ Regex.contains_ci "." "Tent" = false
  ∧ Regex.contains_ci "ten" "Tent" = true.
Proof. split_and!; reflexivity. Qed.

(** C2 fails as stated: without a store, page 0 of size 1 is empty, where
    the formula counts one item. *)
Lemma page_zero_breaks_window_count :
  ∃ r,
    list_products Regex.compile repr_unused handle_passes
        None None None None None None
      None None (Some "relevance") 0 1 = Response r
    ∧ total r = 3
    ∧ items r = []
    ∧ Z.of_nat (length (items r))
      ≠ Z.min 1 (Z.max 0 (total r - (0 - 1) * 1)).
Proof. eexists. split_and!; [reflexivity|reflexivity|reflexivity|done]. Qed.

(** C9 fails as stated: without a store, page -1 of size 1 holds the second
    demo product. *)
Lemma negative_page_returns_items :
  -1 ≤ 0 ∧ 1 ≤ 1
  ∧ ∃ r,
      list_products Regex.compile repr_unused handle_passes
          None None None None None None
        None None (Some "relevance") (-1) 1 = Response r
      ∧ total r = 3
      ∧ (λ d : doc, d !! "id") <$> items r = [Some (VStr "demo-2")]
      ∧ items r ≠ [].
Proof.
  split; [lia|]. split; [lia|]. eexists.
  split_and!; [reflexivity|reflexivity|reflexivity|done].
Qed.

(** *** The theorems above at concrete requests *)

Lemma page_window_count_witness :
  ∃ r,
    list_products Regex.compile repr_unused handle_passes
        (Some sample_db) (Some "k")
      None None None None None None (Some "price_asc") 2 1 = Response r
    ∧ Z.of_nat (length (items r))
      = Z.min 1
          (Z.max 0
             (Z.of_nat (length (matching Regex.compile
                                  (get_collection sample_db "product")
                                  (filter_q (Some "k") None None None None
                                     None None)))
              - (2 - 1) * 1))
    ∧ total r
      = Z.of_nat (length (matching Regex.compile
                            (get_collection sample_db "product")
                            (filter_q (Some "k") None None None None
                               None None))).
Proof.
  eexists. split; [vm_compute; reflexivity|].
  destruct (proj2 (page_window_count Regex.compile repr_unused handle_passes
                     (Some "k") None None None None None None
                     (Some "price_asc") 2 1)
              sample_db _ ltac:(vm_compute; reflexivity)) as [Ht Hn].
  split; [apply Hn; lia|exact Ht].
Defined.

Lemma fallback_nonpositive_page_witness :
  ∃ r,
    list_products Regex.compile repr_unused handle_passes
        None None None None None None
      None None None (-2) 2 = Response r
    ∧ total r = 3
    ∧ (-2 = 0 → items r = [])
    ∧ (items r = [] ↔ -2 = 0 ∨ 3 ≤ - (-2) * 2).
Proof.
  apply (fallback_nonpositive_page Regex.compile repr_unused handle_passes
           None None None
           None None None None None (-2) 2); lia.
Defined.

Lemma impact_never_fails_witness :
  get_impact (λ _, None) (λ _, None)
    (λ _ _ _, Raise (Exn "Exception" "Database not available"))
  = Response {| trees_planted := 128450;
                bottles_recycled := 9723450;
                carbon_offset_kg := 6543215 # 10 |}.
Proof.
  apply (proj2 (impact_never_fails (λ _, None) (λ _, None)
                  (λ _ _ _, Raise (Exn "Exception" "Database not available")))).
  left. eexists. reflexivity.
Defined.

Lemma absent_parameters_add_no_constraint_witness :
  filter_q (Some "") None (Some "") None None None None = ∅
  ∧ ∀ d : doc,
      matches Regex.compile
        (filter_q (Some "") None (Some "") None None None None) d = true.
Proof.
  apply (absent_parameters_add_no_constraint Regex.compile (Some "") None
           (Some "") None None None None); reflexivity.
Defined.

Lemma price_range_constraint_witness :
  (50 # 1 <= 59 # 1)%Q ∧ (59 # 1 <= 100 # 1)%Q.
Proof.
  apply (proj2 (proj2 (price_range_constraint Regex.compile None
                         (Some "Cooking") None None None
                         (Some (50 # 1)) (Some (100 # 1))))
           (<["category" := VStr "Cooking"]> {["price" := VFloat (59 # 1)]})
           (59 # 1) (50 # 1) (100 # 1)).
  - reflexivity.
  - reflexivity.
  - unfold Qle. simpl. lia.
  - reflexivity.
  - vm_compute. reflexivity.
Defined.

Lemma sort_modes_witness :
  ascending "price"
    [ <["id" := VStr "665f1c2ab1e4a90012ab34c2"]>
        (list_to_map [ ("title", VStr "Cork Trekking Poles");
                       ("category", VStr "Hiking");
                       ("price", VFloat (25 # 1));
                       ("rating", VFloat (48 # 10)) ]);
      <["id" := VStr "665f1c2ab1e4a90012ab34c1"]>
        (list_to_map [ ("title", VStr "Ridge Stove");
                       ("category", VStr "Cooking");
                       ("price", VFloat (59 # 1));
                       ("rating", VFloat (41 # 10)) ]);
      <["id" := VStr "665f1c2ab1e4a90012ab34c3"]>
        (list_to_map [ ("title", VStr "Hemp Daypack");
                       ("category", VStr "Hiking");
                       ("price", VFloat (120 # 1));
                       ("rating", VFloat (39 # 10)) ]) ].
Proof.
  pose proof (sort_modes Regex.compile repr_unused handle_passes
           None None None None None
                None None 1 12 sample_db)
    as (_ & _ & _ & _ & _ & _ & Hasc & _).
  apply (Hasc {| items := _; total := 3; page := 1; page_size := 12 |}).
  vm_compute. reflexivity.
Defined.

Lemma reviews_without_id_witness :
  ∃ out,
    get_reviews repr_unused
      (λ _ _ _, Ok [ ({["body" := VStr "Kept me dry"]} : doc) ])
      "665f1c2ab1e4a90012ab34c1" (Some 4) = Response out
    ∧ length out = 1%nat
    ∧ ∀ (i : nat) (item : doc),
        [ ({["body" := VStr "Kept me dry"]} : doc) ] !! i = Some item →
        item !! "_id" = None →
        out !! i = Some (<["id" := VStr ""]> item)
        ∧ (<["id" := VStr ""]> item : doc) !! "id" = Some (VStr "")
        ∧ (<["id" := VStr ""]> item : doc) !! "_id" = None
        ∧ ∀ k, k ≠ "id" → (<["id" := VStr ""]> item : doc) !! k = item !! k.
Proof.
  apply (reviews_without_id repr_unused
           (λ _ _ _, Ok [ ({["body" := VStr "Kept me dry"]} : doc) ])
           "665f1c2ab1e4a90012ab34c1" (Some 4)
           [ ({["body" := VStr "Kept me dry"]} : doc) ]).
  reflexivity.
Defined.

(** ** What the query of [list_products] means *)

Section QueryMeaning.
Variable regex_compile : string → string → option (string → bool).

Lemma matches_if_truthy (o : option string) (k : string)
    (c : string → clause) (f : query) (d : doc) :
  f !! k = None →
  matches regex_compile (if_truthy o (λ s f, <[k := c s]> f) f) d = true
  ↔ (∀ s, o = Some s → s ≠ "" → clause_holds regex_compile k (c s) d = true)
    ∧ matches regex_compile f d = true.
Proof.
  intros Hk. unfold if_truthy. destruct o as [s|]; simpl.
  - destruct (String.eqb_spec s ""); simpl.
    + split; [|by intros [_ ?]]. intros H. split; [|done].
      by intros ? [= <-] ?.
    + rewrite matches_insert by done. split.
      * intros [? ?]. split; [by intros ? [= <-] _|done].
      * intros [H ?]. split; [by apply H|done].
  - split; [|by intros [_ ?]]. intros H. by split.
Qed.

Lemma in_holds (t v : value) :
  cond_holds regex_compile (Ops {["$in" := VList [t]]}) v = true
  ↔ has_value t v = true.
Proof.
  unfold cond_holds, has_value. rewrite bool_decide_eq_true.
  rewrite map_Forall_singleton. unfold op_holds.
  change (String.eqb "$in" "$in") with true. cbv iota.
  rewrite !existsb_exists.
  split; intros (x & Hx & H); exists x; (split; [done|]); simpl in *;
    by rewrite orb_false_r in *.
Qed.

Lemma regex_i_meaning (s : string) (v : value) :
  cond_holds regex_compile (Ops (regex_i s)) v = true
  ↔ ∃ search, regex_compile s "i" = Some search ∧ text_hit search v = true.
Proof.
  destruct (regex_compile s "i") as [search|] eqn:Hs.
  - rewrite (regex_i_holds regex_compile s search v Hs).
    split; [by eauto|]. by intros (? & [= <-] & ?).
  - split; [|by intros (? & ? & _)].
    unfold cond_holds, regex_i. rewrite bool_decide_eq_true.
    rewrite map_Forall_insert by done. rewrite map_Forall_singleton.
    unfold op_holds at 2. simpl. unfold regex_options.
    rewrite lookup_insert_eq, Hs. by intros [_ ?].
Qed.

Lemma clause_in (k : string) (t : value) (d : doc) :
  clause_holds regex_compile k (Field (Ops {["$in" := VList [t]]})) d = true
  ↔ has_value t (field d k) = true.
Proof. apply in_holds. Qed.

Lemma clause_or_text (s : string) (d : doc) :
  clause_holds regex_compile "$or"
    (AnyOf [ {["title" := Ops (regex_i s)]};
             {["description" := Ops (regex_i s)]} ]) d = true
  ↔ ∃ search, regex_compile s "i" = Some search
              ∧ (text_hit search (field d "title") = true
                 ∨ text_hit search (field d "description") = true).
Proof.
  unfold clause_holds. cbn [existsb].
  rewrite orb_false_r, orb_true_iff, !fields_hold_singleton, !regex_i_meaning.
  split.
  - intros [(s' & ? & ?)|(s' & ? & ?)]; exists s'; eauto.
  - intros (s' & ? & [?|?]); eauto.
Qed.

Lemma filter_q_no_price (q category activity season sustainable : option string) :
  filter_q q category activity season sustainable None None
  = if_truthy sustainable (λ sustainable f,
      <["sustainability_features" :=
          Field (Ops {["$in" := VList [VStr sustainable]]})]> f)
      (if_truthy season (λ season f,
         <["seasons" := Field (Ops {["$in" := VList [VStr season]]})]> f)
         (if_truthy activity (λ activity f,
            <["activity_types" :=
                Field (Ops {["$in" := VList [VStr activity]]})]> f)
            (if_truthy category (λ category f,
               <["category" := Field (Equals (VStr category))]> f)
               (if_truthy q (λ q f,
                  <["$or" := AnyOf [ {["title" := Ops (regex_i q)]};
                                     {["description" := Ops (regex_i q)]} ]]>
                    f) ∅)))).
Proof. reflexivity. Qed.

Lemma matches_filter_q
    (q category activity season sustainable : option string)
    (min_price max_price : option Q) (d : doc) :
  matches regex_compile
    (filter_q q category activity season sustainable min_price max_price) d
  = true
  ↔ meets_text regex_compile q d
    ∧ meets_value category "category" d
    ∧ meets_value activity "activity_types" d
    ∧ meets_value season "seasons" d
    ∧ meets_value sustainable "sustainability_features" d
    ∧ meets_price regex_compile min_price max_price d.
Proof.
  assert (Hbase :
    matches regex_compile
      (filter_q q category activity season sustainable None None) d = true
    ↔ meets_text regex_compile q d
      ∧ meets_value category "category" d
      ∧ meets_value activity "activity_types" d
      ∧ meets_value season "seasons" d
      ∧ meets_value sustainable "sustainability_features" d).
  { rewrite filter_q_no_price.
    rewrite !matches_if_truthy by (skip_entries; apply lookup_empty).
    unfold meets_text, meets_value. split.
    - intros (H5 & H4 & H3 & H2 & H1 & _). split_and!; intros t Ht Hne.
      + by apply clause_or_text, H1.
      + by apply (H2 t Ht Hne).
      + by apply (clause_in "activity_types"), H3.
      + by apply (clause_in "seasons"), H4.
      + by apply (clause_in "sustainability_features"), H5.
    - intros (H1 & H2 & H3 & H4 & H5).
      split_and!; try apply matches_empty; intros t Ht Hne.
      + by apply clause_in, H5.
      + by apply clause_in, H4.
      + by apply clause_in, H3.
      + by apply (H2 t Ht Hne).
      + by apply clause_or_text, H1. }
  rewrite filter_q_price. unfold meets_price.
  pose proof (filter_q_lookup q category activity season sustainable
                None None) as (_ & _ & _ & _ & _ & Hp & _).
  simpl in Hp. specialize (Hp eq_refl eq_refl).
  destruct (_ || _) eqn:E.
  - rewrite matches_insert by done. rewrite Hbase. unfold clause_holds.
    apply orb_true_iff in E. rewrite !bool_decide_eq_true in E. tauto.
  - rewrite Hbase. apply orb_false_elim in E as [E1 E2].
    apply bool_decide_eq_false in E1, E2. tauto.
Qed.

End QueryMeaning.

Lemma value_eqb_str (x : value) (s : string) :
  value_eqb x (VStr s) = true ↔ x = VStr s.
Proof.
  destruct x; simpl; try (split; intros; done).
  rewrite String.eqb_eq. split; [by intros ->|by intros [= ->]].
Qed.

Lemma has_value_str (s x : string) : has_value (VStr s) (VStr x) = true ↔ x = s.
Proof.
  unfold has_value. simpl. rewrite orb_false_r, String.eqb_eq. done.
Qed.

Lemma has_value_string_list (s : string) (l : list string) :
  has_value (VStr s) (string_list l) = true ↔ s ∈ l.
Proof.
  unfold has_value, string_list. simpl. rewrite existsb_exists. split.
  - intros (x & Hx & H). apply value_eqb_str in H as ->.
    apply list_elem_of_In, list_elem_of_fmap in Hx as (y & [= ->] & Hy). done.
  - intros Hs. exists (VStr s). split; [|by apply value_eqb_str].
    apply list_elem_of_In, list_elem_of_fmap. eauto.
Qed.

Section Products.
Variable regex_compile : string → string → option (string → bool).

(** X1: on a product shaped as the schema has it (a string category,
    string lists for activities, seasons and features, a numeric price) the
    query of [list_products] holds exactly when every argument given
    holds: the text pattern finds a match in title or description, the
    category is equal, each token is in its list, the price is within the
    bounds given. *)
Theorem product_matches_iff_every_filter_holds
    (q category activity season sustainable : option string)
    (min_price max_price : option Q) (d : doc)
    (cat : string) (acts seas feats : list string) (x : Q) :
  d !! "category" = Some (VStr cat) →
  d !! "activity_types" = Some (string_list acts) →
  d !! "seasons" = Some (string_list seas) →
  d !! "sustainability_features" = Some (string_list feats) →
  as_num (field d "price") = Some x →
  matches regex_compile
    (filter_q q category activity season sustainable min_price max_price) d
  = true
  ↔ meets_text regex_compile q d
    ∧ (∀ t, category = Some t → t ≠ "" → cat = t)
    ∧ (∀ t, activity = Some t → t ≠ "" → t ∈ acts)
    ∧ (∀ t, season = Some t → t ≠ "" → t ∈ seas)
    ∧ (∀ t, sustainable = Some t → t ≠ "" → t ∈ feats)
    ∧ (∀ lo, min_price = Some lo → (lo <= x)%Q)
    ∧ (∀ hi, max_price = Some hi → (x <= hi)%Q).
Proof.
  intros Hcat Hacts Hseas Hfeats Hx. rewrite matches_filter_q.
  assert (field d "category" = VStr cat) as Ecat
    by (unfold field, get; by rewrite Hcat).
  assert (field d "activity_types" = string_list acts) as Eacts
    by (unfold field, get; by rewrite Hacts).
  assert (field d "seasons" = string_list seas) as Eseas
    by (unfold field, get; by rewrite Hseas).
  assert (field d "sustainability_features" = string_list feats) as Efeats
    by (unfold field, get; by rewrite Hfeats).
  unfold meets_value, meets_price. rewrite Ecat, Eacts, Eseas, Efeats.
  setoid_rewrite has_value_str. setoid_rewrite has_value_string_list.
  rewrite (price_filter_holds regex_compile _ _ _ _ Hx).
  split.
  - intros (H1 & H2 & H3 & H4 & H5 & H6). split_and!; try done.
    + intros lo Hlo. apply H6; [|done]. left. by rewrite Hlo.
    + intros hi Hhi. apply H6; [|done]. right. by rewrite Hhi.
  - intros (H1 & H2 & H3 & H4 & H5 & H6 & H7). split_and!; done.
Qed.

End Products.

(** ** What the store-backed listing returns *)

Section StoreListing.
Variable regex_compile : string → string → option (string → bool).
Variable py_repr : value → string.
Variable bool_db : database → result unit.

Lemma elem_of_matching (coll : collection) (f : query) (d : doc) :
  d ∈ matching regex_compile coll f
  ↔ ∃ s, s ∈ coll ∧ d = as_dict s ∧ matches regex_compile f d = true.
Proof.
  unfold matching. rewrite list_elem_of_filter, list_elem_of_fmap. split.
  - intros [Hm (s & -> & Hs)]. eauto.
  - intros (s & Hs & -> & Hm). eauto.
Qed.

Lemma elem_of_window (coll : collection) (f : query)
    (spec : option (list (string * Z))) (page page_size : Z) (d : doc) :
  d ∈ window regex_compile coll f spec page page_size →
  d ∈ matching regex_compile coll f.
Proof.
  unfold window. intros Hd.
  assert (d ∈ match spec with
               | Some (key :: keys) =>
                   merge_sort (le_docs (key :: keys))
                     (matching regex_compile coll f)
               | _ => matching regex_compile coll f
               end) as H.
  { destruct (page_size =? 0).
    - by eapply subseteq_drop.
    - by eapply subseteq_drop, subseteq_take. }
  destruct spec as [[|key keys]|]; try done.
  by rewrite merge_sort_Permutation in H.
Qed.

Lemma field_rename_id_or_empty (d : doc) (k : string) :
  k ≠ "id" → k ≠ "_id" → field (rename_id_or_empty py_repr d) k = field d k.
Proof.
  intros ? ?. unfold field, get. by rewrite rename_id_or_empty_other.
Qed.

Lemma field_as_dict (s : stored) (k : string) :
  k ≠ "_id" → as_dict s !! k = doc_fields s !! k.
Proof. intros ?. unfold as_dict. by rewrite lookup_insert_ne. Qed.

(** X3: every item the store-backed listing returns is a stored product
    that matches the query, with ["_id"] removed, ["id"] set to the text of
    the stored identifier (whatever ["id"] the product had), and every
    other field as stored. *)
Theorem listed_items_are_renamed_stored_products (db : database)
    (q category activity season sustainable : option string)
    (min_price max_price : option Q) (sort : option string)
    (page page_size : Z) (r : ProductListResponse) :
  list_products regex_compile py_repr bool_db (Some db) q category activity
    season sustainable min_price max_price sort page page_size = Response r →
  ∀ item : doc, item ∈ items r →
    ∃ s : stored,
      s ∈ get_collection db "product"
      ∧ matches regex_compile
          (filter_q q category activity season sustainable min_price max_price)
          (as_dict s) = true
      ∧ item !! "id" = Some (VStr (str py_repr (doc_id s)))
      ∧ item !! "_id" = None
      ∧ ∀ k, k ≠ "id" → k ≠ "_id" → item !! k = doc_fields s !! k.
Proof.
  intros Hr item Hitem.
  apply list_products_store_inv in Hr as (_ & _ & ->). simpl in Hitem.
  apply list_elem_of_fmap in Hitem as (d & -> & Hd).
  apply elem_of_window, elem_of_matching in Hd as (s & Hs & -> & Hm).
  exists s. split_and!; try done.
  - unfold rename_id_or_empty, get, as_dict.
    by rewrite lookup_insert_eq, lookup_insert_eq.
  - unfold rename_id_or_empty. by rewrite lookup_insert_ne, lookup_delete_eq.
  - intros k ? ?. by rewrite rename_id_or_empty_other, field_as_dict.
Qed.

(** X2: every item the store-backed listing returns meets every filter
    the request gives; in particular a numeric price is within the
    bounds. *)
Theorem listed_items_meet_every_filter (db : database)
    (q category activity season sustainable : option string)
    (min_price max_price : option Q) (sort : option string)
    (page page_size : Z) (r : ProductListResponse) :
  list_products regex_compile py_repr bool_db (Some db) q category activity
    season sustainable min_price max_price sort page page_size = Response r →
  ∀ item : doc, item ∈ items r →
    meets_text regex_compile q item
    ∧ meets_value category "category" item
    ∧ meets_value activity "activity_types" item
    ∧ meets_value season "seasons" item
    ∧ meets_value sustainable "sustainability_features" item
    ∧ meets_price regex_compile min_price max_price item
    ∧ ∀ x lo hi, as_num (field item "price") = Some x →
        (min_price = Some lo → (lo <= x)%Q)
        ∧ (max_price = Some hi → (x <= hi)%Q).
Proof.
  intros Hr item Hitem.
  apply list_products_store_inv in Hr as (_ & _ & ->). simpl in Hitem.
  apply list_elem_of_fmap in Hitem as (d & -> & Hd).
  apply elem_of_window, elem_of_matching in Hd as (s & _ & -> & Hm).
  apply matches_filter_q in Hm.
  unfold meets_text, meets_value, meets_price in *.
  rewrite !field_rename_id_or_empty by done.
  destruct Hm as (H1 & H2 & H3 & H4 & H5 & H6). split_and!; try done.
  intros x lo hi Hx. split; intros Hb.
  - assert (is_Some min_price ∨ is_Some max_price) as Hsome
      by (left; by rewrite Hb).
    apply H6, (price_filter_holds regex_compile _ _ _ _ Hx) in Hsome as [Hlo _].
    by apply Hlo.
  - assert (is_Some min_price ∨ is_Some max_price) as Hsome
      by (right; by rewrite Hb).
    apply H6, (price_filter_holds regex_compile _ _ _ _ Hx) in Hsome as [_ Hhi].
    by apply Hhi.
Qed.


Lemma filter_q_valid_inv
    (q category activity season sustainable : option string)
    (min_price max_price : option Q) :
  valid regex_compile
    (filter_q q category activity season sustainable min_price max_price)
  = true →
  ∀ t, q = Some t → t ≠ "" → is_Some (regex_compile t "i").
Proof.
  unfold valid. rewrite bool_decide_eq_true. intros Hv t -> Hne.
  assert (filter_q (Some t) category activity season sustainable
            min_price max_price !! "$or"
          = Some (AnyOf [ {["title" := Ops (regex_i t)]};
                          {["description" := Ops (regex_i t)]} ])) as Hor.
  { rewrite filter_q_price.
    assert (filter_q (Some t) category activity season sustainable None None
            !! "$or"
          = Some (AnyOf [ {["title" := Ops (regex_i t)]};
                          {["description" := Ops (regex_i t)]} ])) as Hb.
    { rewrite filter_q_no_price. skip_entries. unfold if_truthy. simpl.
      destruct (String.eqb_spec t ""); [done|]. simpl.
      by rewrite lookup_insert_eq. }
    destruct (_ || _); [by rewrite lookup_insert_ne|done]. }
  apply Hv in Hor. unfold clause_valid in Hor. simpl in Hor.
  apply andb_true_iff in Hor as [Ht _].
  unfold fields_valid in Ht.
  rewrite bool_decide_eq_true, map_Forall_singleton in Ht.
  unfold cond_valid, regex_i in Ht. rewrite bool_decide_eq_true in Ht.
  specialize (Ht "$regex" (VStr t)).
  rewrite lookup_insert_ne, lookup_singleton_eq in Ht by done.
  specialize (Ht eq_refl). unfold op_valid in Ht. simpl in Ht.
  unfold regex_options in Ht. rewrite lookup_insert_eq in Ht.
  by apply bool_decide_eq_true in Ht.
Qed.

(** X6: the store-backed listing is either answered or refused with
    status 500, nothing else.  It is answered only if the handle passes the
    truth test of [if db], the store accepts the free-text argument as a
    pattern and [(page-1)*page_size] is not negative.  A handle whose truth
    test raises gives 500 with the text of that exception; a negative
    offset, on a handle that passes and with an accepted pattern, gives 500
    with the driver's message. *)
Theorem store_listing_answers_or_fails_with_500 (db : database)
    (q category activity season sustainable : option string)
    (min_price max_price : option Q) (sort : option string)
    (page page_size : Z) :
  let accepted := ∀ t, q = Some t → t ≠ "" → is_Some (regex_compile t "i") in
  let outcome :=
    list_products regex_compile py_repr bool_db (Some db) q category activity
      season sustainable min_price max_price sort page page_size in
  ((∃ r, outcome = Response r) ∨ ∃ detail, outcome = HTTPException 500 detail)
  ∧ ((∃ r, outcome = Response r) →
     bool_db db = Ok () ∧ accepted ∧ 0 ≤ (page - 1) * page_size)
  ∧ (∀ e, bool_db db = Raise e → outcome = HTTPException 500 (exn_msg e))
  ∧ (bool_db db = Ok () → accepted → (page - 1) * page_size < 0 →
     outcome = HTTPException 500 "skip must be >= 0").
Proof.
  simpl. split_and!.
  - rewrite list_products_store. simpl. destruct (bool_db db); [|eauto].
    destruct (valid _ _); [|eauto]. destruct (_ <? 0); [eauto|].
    destruct (_ && _); eauto.
  - intros [r Hr]. split_and!.
    + by eapply list_products_store_passes.
    + apply list_products_store_inv in Hr as (Hv & _ & _).
      exact (filter_q_valid_inv _ _ _ _ _ _ _ Hv).
    + by apply list_products_store_inv in Hr as (_ & Hs & _).
  - intros e He. rewrite list_products_store. simpl. by rewrite He.
  - intros Hb Ha Hs. rewrite list_products_store. simpl. rewrite Hb.
    rewrite (filter_q_valid regex_compile) by done.
    destruct (Z.ltb_spec ((page - 1) * page_size) 0); [done|lia].
Qed.

Lemma window_in_order (coll : collection) (f : query)
    (spec : option (list (string * Z))) (page page_size : Z) :
  window regex_compile coll f spec page page_size
  = if page_size =? 0
    then drop (Z.to_nat ((page - 1) * page_size))
           (in_order regex_compile coll f spec)
    else take (Z.to_nat (Z.abs page_size))
           (drop (Z.to_nat ((page - 1) * page_size))
              (in_order regex_compile coll f spec)).
Proof. reflexivity. Qed.

Lemma in_order_Permutation (coll : collection) (f : query)
    (spec : option (list (string * Z))) :
  in_order regex_compile coll f spec ≡ₚ matching regex_compile coll f.
Proof.
  unfold in_order. destruct spec as [[|key keys]|]; try done.
  apply merge_sort_Permutation.
Qed.

Lemma window_first_page (coll : collection) (f : query)
    (spec : option (list (string * Z))) (page_size : Z) :
  1 ≤ page_size →
  Z.of_nat (length (matching regex_compile coll f)) ≤ page_size →
  window regex_compile coll f spec 1 page_size
  = in_order regex_compile coll f spec.
Proof.
  intros H1 HN. rewrite window_in_order.
  destruct (Z.eqb_spec page_size 0); [lia|]. simpl.
  apply take_ge. rewrite (in_order_Permutation coll f spec). lia.
Qed.

Lemma window_lookup (coll : collection) (f : query)
    (spec : option (list (string * Z))) (page page_size : Z) (j : nat) :
  1 ≤ page → 1 ≤ page_size →
  window regex_compile coll f spec page page_size !! j
  = if bool_decide (Z.of_nat j < page_size)
    then in_order regex_compile coll f spec
         !! (Z.to_nat ((page - 1) * page_size) + j)%nat
    else None.
Proof.
  intros Hp Hs. rewrite window_in_order.
  destruct (Z.eqb_spec page_size 0); [lia|].
  case_bool_decide.
  - rewrite lookup_take_lt by lia. apply lookup_drop.
  - apply lookup_take_ge. lia.
Qed.

(** X4: when page 1 is answered with a page size of at least 1 that
    covers all the matches, it holds every matching product exactly once,
    whatever the sort mode; without an ordering they come in the store's
    order. *)
Theorem first_page_holds_every_match (db : database)
    (q category activity season sustainable : option string)
    (min_price max_price : option Q) (sort : option string) (page_size : Z)
    (r : ProductListResponse) :
  let found :=
    matching regex_compile (get_collection db "product")
      (filter_q q category activity season sustainable min_price max_price) in
  list_products regex_compile py_repr bool_db (Some db) q category activity
    season sustainable min_price max_price sort 1 page_size = Response r →
  1 ≤ page_size → Z.of_nat (length found) ≤ page_size →
  items r ≡ₚ rename_id_or_empty py_repr <$> found
  ∧ (sort_spec sort = None → items r = rename_id_or_empty py_repr <$> found).
Proof.
  intros found Hr Hs HN.
  apply list_products_store_inv in Hr as (_ & _ & ->). simpl.
  rewrite window_first_page by done. split.
  - by rewrite in_order_Permutation.
  - by intros ->.
Qed.

(** X5: an answered page of size at least 1 is a run of the matches put
    in order: there is an arrangement of all the matching products, sorted
    as the sort mode asks (the store's own order when it asks nothing), of
    which the page holds the [page_size] items from offset
    [(page-1)*page_size] on, identifiers renamed. *)
Theorem store_page_is_a_run_of_the_ordered_matches (db : database)
    (q category activity season sustainable : option string)
    (min_price max_price : option Q) (sort : option string)
    (page page_size : Z) (r : ProductListResponse) :
  let found :=
    matching regex_compile (get_collection db "product")
      (filter_q q category activity season sustainable min_price max_price) in
  list_products regex_compile py_repr bool_db (Some db) q category activity
    season sustainable min_price max_price sort page page_size = Response r →
  1 ≤ page_size →
  ∃ ordered : list doc,
    ordered ≡ₚ found
    ∧ (∀ key keys, sort_spec sort = Some (key :: keys) →
                   Sorted (le_docs (key :: keys)) ordered)
    ∧ (sort_spec sort = None → ordered = found)
    ∧ items r
      = rename_id_or_empty py_repr
        <$> take (Z.to_nat page_size)
              (drop (Z.to_nat ((page - 1) * page_size)) ordered).
Proof.
  intros found Hr Hs.
  apply list_products_store_inv in Hr as (_ & _ & ->). simpl.
  exists (in_order regex_compile (get_collection db "product")
            (filter_q q category activity season sustainable
               min_price max_price) (sort_spec sort)).
  split_and!.
  - apply in_order_Permutation.
  - intros key keys ->. apply Sorted_merge_sort, _.
  - by intros ->.
  - rewrite window_in_order. destruct (Z.eqb_spec page_size 0); [lia|].
    by rewrite Z.abs_eq by lia.
Qed.

(** X9: every sort token other than [price_asc], [price_desc] and
    [highest_rated] gives the same response as [relevance], with or
    without a store. *)
Theorem unordered_sort_modes_agree (db : option database)
    (q category activity season sustainable : option string)
    (min_price max_price : option Q) (sort : option string)
    (page page_size : Z) :
  sort ≠ Some "price_asc" → sort ≠ Some "price_desc" →
  sort ≠ Some "highest_rated" →
  list_products regex_compile py_repr bool_db db q category activity season
    sustainable min_price max_price sort page page_size
  = list_products regex_compile py_repr bool_db db q category activity season
      sustainable min_price max_price (Some "relevance") page page_size.
Proof.
  intros H1 H2 H3. unfold list_products.
  assert (sort_spec sort = None) as ->.
  { unfold sort_spec. by rewrite !bool_decide_eq_false_2. }
  done.
Qed.


Lemma price_filter_meaning (min_price max_price : option Q) (v : value) :
  cond_holds regex_compile (Ops (price_filter min_price max_price)) v = true
  ↔ (∀ lo, min_price = Some lo →
           op_holds regex_compile ∅ "$gte" (VFloat lo) v = true)
    ∧ (∀ hi, max_price = Some hi →
             op_holds regex_compile ∅ "$lte" (VFloat hi) v = true).
Proof.
  unfold cond_holds, price_filter. rewrite bool_decide_eq_true.
  destruct min_price as [lo|], max_price as [hi|];
    rewrite ?map_Forall_insert by done.
  - split.
    + intros (? & ? & _). split; intros ? [= <-]; done.
    + intros [H1 H2]. split_and!;
        [by apply H2|by apply H1|apply map_Forall_empty].
  - split.
    + intros [? _]. split; [by intros ? [= <-]|done].
    + intros [H1 _]. split; [by apply H1|apply map_Forall_empty].
  - split.
    + intros [? _]. split; [done|by intros ? [= <-]].
    + intros [_ H2]. split; [by apply H2|apply map_Forall_empty].
  - split; [done|]. intros _. apply map_Forall_empty.
Qed.

Lemma length_filter_impl {A : Type} (P Q : A → Prop)
    `{!∀ x, Decision (P x)} `{!∀ x, Decision (Q x)} (l : list A) :
  (∀ x, P x → Q x) → (length (filter P l) ≤ length (filter Q l))%nat.
Proof.
  intros HPQ. induction l as [|x l IH]; [done|].
  rewrite !filter_cons. destruct (decide (P x)) as [HP|HP].
  - rewrite decide_True by auto. simpl. lia.
  - destruct (decide (Q x)); simpl; lia.
Qed.

(** X7: leaving filter arguments out never loses a match: a document
    matched by a request is matched by every request that gives a subset
    of its arguments, so the total can only grow. *)
Theorem dropping_filters_keeps_every_match (coll : collection)
    (q category activity season sustainable : option string)
    (min_price max_price : option Q)
    (q' category' activity' season' sustainable' : option string)
    (min_price' max_price' : option Q) :
  weaker truthy q' q → weaker truthy category' category →
  weaker truthy activity' activity → weaker truthy season' season →
  weaker truthy sustainable' sustainable →
  weaker (λ o, bool_decide (is_Some o)) min_price' min_price →
  weaker (λ o, bool_decide (is_Some o)) max_price' max_price →
  let asked :=
    filter_q q category activity season sustainable min_price max_price in
  let asked' :=
    filter_q q' category' activity' season' sustainable' min_price'
      max_price' in
  (∀ d : doc, matches regex_compile asked d = true →
              matches regex_compile asked' d = true)
  ∧ (length (matching regex_compile coll asked)
     ≤ length (matching regex_compile coll asked'))%nat.
Proof.
  intros Hq Hc Ha Hs Hsu Hlo Hhi asked asked'.
  assert (Hm : ∀ d : doc, matches regex_compile asked d = true →
                          matches regex_compile asked' d = true).
  { intros d. unfold asked, asked'. rewrite !matches_filter_q.
    assert (Hfalsy : ∀ (o : option string) t,
              truthy o = false → o = Some t → t ≠ "" → False).
    { intros o t Ho -> Hne. simpl in Ho. apply negb_false_iff in Ho.
      by apply String.eqb_eq in Ho. }
    intros (H1 & H2 & H3 & H4 & H5 & H6). split_and!.
    - destruct Hq as [Hq| ->]; [|done].
      intros t Ht Hne. destruct (Hfalsy _ _ Hq Ht Hne).
    - destruct Hc as [Hc| ->]; [|done].
      intros t Ht Hne. destruct (Hfalsy _ _ Hc Ht Hne).
    - destruct Ha as [Ha| ->]; [|done].
      intros t Ht Hne. destruct (Hfalsy _ _ Ha Ht Hne).
    - destruct Hs as [Hs| ->]; [|done].
      intros t Ht Hne. destruct (Hfalsy _ _ Hs Ht Hne).
    - destruct Hsu as [Hsu| ->]; [|done].
      intros t Ht Hne. destruct (Hfalsy _ _ Hsu Ht Hne).
    - unfold meets_price in *. intros Hsome.
      rewrite price_filter_meaning.
      assert (is_Some min_price ∨ is_Some max_price) as Hsome'.
      { destruct Hsome as [Hx|Hx].
        - destruct Hlo as [Hlo| <-]; [|by left].
          apply bool_decide_eq_false in Hlo. done.
        - destruct Hhi as [Hhi| <-]; [|by right].
          apply bool_decide_eq_false in Hhi. done. }
      apply H6, price_filter_meaning in Hsome' as [Hl Hh]. split.
      + intros lo Hlo'. destruct Hlo as [Hlo| <-]; [|by apply Hl].
        apply bool_decide_eq_false in Hlo. rewrite Hlo' in Hlo.
        by destruct Hlo.
      + intros hi Hhi'. destruct Hhi as [Hhi| <-]; [|by apply Hh].
        apply bool_decide_eq_false in Hhi. rewrite Hhi' in Hhi.
        by destruct Hhi. }
  split; [done|]. unfold matching. by apply length_filter_impl.
Qed.

(** X8: with [max_price] below [min_price] and numeric prices in the
    store, an answered listing is empty and its total is 0. *)
Theorem inverted_price_range_lists_nothing (db : database)
    (q category activity season sustainable : option string)
    (lo hi : Q) (sort : option string) (page page_size : Z)
    (r : ProductListResponse) :
  (hi < lo)%Q →
  Forall (λ s, is_Some (as_num (field (as_dict s) "price")))
    (get_collection db "product") →
  list_products regex_compile py_repr bool_db (Some db) q category activity
    season sustainable (Some lo) (Some hi) sort page page_size = Response r →
  items r = [] ∧ total r = 0.
Proof.
  intros Hinv Hnum Hr.
  apply list_products_store_inv in Hr as (_ & _ & ->). simpl.
  assert (matching regex_compile (get_collection db "product")
            (filter_q q category activity season sustainable
               (Some lo) (Some hi)) = []) as Hnil.
  { apply elem_of_nil_inv. intros d Hd.
    apply elem_of_matching in Hd as (s & Hs & -> & Hm).
    rewrite Forall_forall in Hnum. destruct (Hnum s Hs) as [x Hx].
    apply matches_filter_q in Hm as (_ & _ & _ & _ & _ & Hp).
    unfold meets_price in Hp.
    rewrite (price_filter_holds regex_compile _ _ _ _ Hx) in Hp.
    destruct Hp as [H1 H2]; [by left|].
    specialize (H1 lo eq_refl). specialize (H2 hi eq_refl).
    apply (Qlt_not_le _ _ Hinv). by eapply Qle_trans. }
  split; [|by rewrite Hnil].
  assert (window regex_compile (get_collection db "product")
            (filter_q q category activity season sustainable
               (Some lo) (Some hi)) (sort_spec sort) page page_size = [])
    as ->; [|done].
  apply elem_of_nil_inv. intros d Hd.
  apply elem_of_window in Hd. rewrite Hnil in Hd. by apply elem_of_nil in Hd.
Qed.

End StoreListing.

(** ** More on the fallback catalogue *)

Lemma slice_lookup {A : Type} (l : list A) (start stop : Z) (j : nat) :
  0 ≤ start → start ≤ stop →
  slice l start stop !! j
  = if bool_decide (Z.of_nat j < stop - start)
    then l !! (Z.to_nat start + j)%nat
    else None.
Proof.
  intros H0 Hle. unfold slice, slice_index.
  destruct (Z.ltb_spec start 0); [lia|]. destruct (Z.ltb_spec stop 0); [lia|].
  set (len := Z.of_nat (length l)).
  destruct (decide (Z.of_nat j < Z.min stop len - Z.min start len)) as [Hj|Hj].
  - rewrite lookup_take_lt by lia. rewrite lookup_drop.
    rewrite bool_decide_eq_true_2 by lia. f_equal. lia.
  - rewrite lookup_take_ge by lia. case_bool_decide; [|done].
    symmetry. apply lookup_ge_None. unfold len in *. lia.
Qed.

Section FallbackPaging.
Variable regex_compile : string → string → option (string → bool).
Variable py_repr : value → string.
Variable bool_db : database → result unit.

(** X10: without a store, from page 1 on, item [j] of a page is demo item
    [(page-1)*page_size + j], and a page holds no item beyond
    [page_size]. *)
Theorem fallback_pages_tile_the_demo_items
    (q category activity season sustainable : option string)
    (min_price max_price : option Q) (sort : option string)
    (page page_size : Z) :
  1 ≤ page → 0 ≤ page_size →
  ∃ r,
    list_products regex_compile py_repr bool_db None q category activity season
      sustainable min_price max_price sort page page_size = Response r
    ∧ ∀ j : nat,
        items r !! j
        = if bool_decide (Z.of_nat j < page_size)
          then demo_items !! (Z.to_nat ((page - 1) * page_size) + j)%nat
          else None.
Proof.
  intros Hp Hs. eexists. split; [apply list_products_fallback|].
  intros j. simpl. rewrite slice_lookup by nia.
  by replace ((page - 1) * page_size + page_size - (page - 1) * page_size)
    with page_size by ring.
Qed.

(** X11: without a store, whatever the page (also below 1), a page size
    that is not negative bounds the number of items, and the total stays
    3. *)
Theorem fallback_never_exceeds_page_size
    (q category activity season sustainable : option string)
    (min_price max_price : option Q) (sort : option string)
    (page page_size : Z) :
  0 ≤ page_size →
  ∃ r,
    list_products regex_compile py_repr bool_db None q category activity season
      sustainable min_price max_price sort page page_size = Response r
    ∧ total r = 3
    ∧ Z.of_nat (length (items r)) ≤ Z.min 3 page_size.
Proof.
  intros Hs. eexists. split; [apply list_products_fallback|]. simpl.
  split; [done|]. rewrite length_slice, length_demo_items.
  generalize ((page - 1) * page_size). intros k.
  unfold slice_index. case_ltb; lia.
Qed.

End FallbackPaging.

(** ** More on the impact figures and the reviews *)

Section ImpactRecord.
Variable py_repr : value → string.
Variable int_of_str : string → option Z.
Variable float_of_str : string → option Q.
Variable get_documents : string → query → option Z → result (list doc).

Lemma int_not_numeric (v : value) :
  not_numeric v → ∃ e, int int_of_str v = Raise e.
Proof. destruct v; simpl; intros H; try done; eauto. Qed.

Lemma float_not_numeric (v : value) :
  not_numeric v → ∃ e, float float_of_str v = Raise e.
Proof. destruct v; simpl; intros H; try done; eauto. Qed.

Lemma float_exact (z : Z) :
  Z.abs z ≤ 2 ^ 53 → float float_of_str (VInt z) = Ok (inject_Z z).
Proof.
  intros Hz. unfold float, round_to_double.
  destruct (Z.ltb_spec (Z.abs z) (2 ^ 53)) as [Hlt|Hge].
  - assert (2 ^ 53 < 2 ^ 1024) by (apply Z.pow_lt_mono_r; lia).
    destruct (Z.ltb_spec (Z.abs z) (2 ^ 1024)); [done|lia].
  - assert (z = 2 ^ 53 ∨ z = - 2 ^ 53) as [-> | ->] by lia;
      vm_compute; reflexivity.
Qed.

Example float_rounds_a_large_int :
  float float_of_str (VInt 9007199254740993)
  = Ok (inject_Z 9007199254740992).
Proof. vm_compute. reflexivity. Qed.

(** X12: when the store returns records, [get_impact] answers from the
    first one alone: integer counters as stored, a missing field as 0, and
    the offset as stored when it is a float, or an integer of at most
    [2^53] in absolute value (which converts without rounding); no sign
    check is made. *)
Theorem impact_reads_the_first_record (d : doc) (others : list doc)
    (trees bottles : Z) (carbon : Q) :
  get_documents "impactstats" ∅ (Some 1) = Ok (d :: others) →
  get d "trees_planted" (VInt 0) = VInt trees →
  get d "bottles_recycled" (VInt 0) = VInt bottles →
  get d "carbon_offset_kg" (VFloat 0) = VFloat carbon
  ∨ (∃ z, get d "carbon_offset_kg" (VFloat 0) = VInt z
          ∧ Z.abs z ≤ 2 ^ 53 ∧ carbon = inject_Z z) →
  get_impact int_of_str float_of_str get_documents
  = Response {| trees_planted := trees;
                bottles_recycled := bottles;
                carbon_offset_kg := carbon |}.
Proof.
  intros Hdocs Ht Hb Hc. unfold get_impact, read_impact.
  rewrite Hdocs. simpl. rewrite Ht, Hb. simpl.
  destruct Hc as [-> | (z & -> & Hz & ->)]; [done|].
  by rewrite (float_exact z Hz).
Qed.

(** X13: when one of the three fields of the first record is neither a
    number, a boolean nor a string, [get_impact] answers the whole
    fallback record, not the fields it could read. *)
Theorem impact_falls_back_as_a_whole (d : doc) (others : list doc) :
  get_documents "impactstats" ∅ (Some 1) = Ok (d :: others) →
  not_numeric (get d "trees_planted" (VInt 0))
  ∨ not_numeric (get d "bottles_recycled" (VInt 0))
  ∨ not_numeric (get d "carbon_offset_kg" (VFloat 0)) →
  get_impact int_of_str float_of_str get_documents
  = Response impact_fallback.
Proof.
  intros Hdocs Hbad. unfold get_impact, read_impact. rewrite Hdocs. simpl.
  destruct Hbad as [H|[H|H]].
  - destruct (int_not_numeric _ H) as [e ->]. done.
  - destruct (int_not_numeric _ H) as [e ->].
    by destruct (int int_of_str (get d "trees_planted" (VInt 0))).
  - destruct (float_not_numeric _ H) as [e ->].
    destruct (int int_of_str (get d "trees_planted" (VInt 0))); [|done].
    by destruct (int int_of_str (get d "bottles_recycled" (VInt 0))).
Qed.

(** X14: [get_reviews] turns a failure of the read into status 500 with
    the exception's text; otherwise it answers one item per review, in
    order, without ["_id"], with ["id"] the text of the identifier the
    review had, and every other field unchanged. *)
Theorem reviews_carry_their_identifier (product_id : string)
    (min_rating : option Z) :
  (∀ e, get_documents "review" (reviews_filter product_id min_rating) None
        = Raise e →
        get_reviews py_repr get_documents product_id min_rating
        = HTTPException 500 (exn_msg e))
  ∧ (∀ found,
       get_documents "review" (reviews_filter product_id min_rating) None
       = Ok found →
       ∃ out,
         get_reviews py_repr get_documents product_id min_rating
         = Response out
         ∧ length out = length found
         ∧ ∀ (i : nat) (item : doc), found !! i = Some item →
             ∃ item' : doc,
               out !! i = Some item'
               ∧ item' !! "_id" = None
               ∧ (∀ v, item !! "_id" = Some v →
                       item' !! "id" = Some (VStr (str py_repr v)))
               ∧ ∀ k, k ≠ "id" → k ≠ "_id" → item' !! k = item !! k).
Proof.
  split.
  - intros e He. unfold get_reviews. by rewrite He.
  - intros found Hfound. unfold get_reviews. rewrite Hfound. simpl.
    eexists. split; [done|]. split; [by rewrite length_fmap|].
    intros i item Hi. eexists. rewrite list_lookup_fmap, Hi. simpl.
    split; [done|]. split_and!.
    + unfold rename_id_or_empty.
      by rewrite lookup_insert_ne, lookup_delete_eq.
    + intros v Hv. unfold rename_id_or_empty, get.
      by rewrite lookup_insert_eq, Hv.
    + intros k ? ?. by apply rename_id_or_empty_other.
Qed.

End ImpactRecord.

(** ** The diagnostic handler *)

Lemma slice_prefix {A : Type} (l : list A) (n : Z) :
  0 ≤ n → slice l 0 n = take (Z.to_nat n) l.
Proof.
  intros Hn. unfold slice, slice_index.
  destruct (Z.ltb_spec 0 0); [lia|]. destruct (Z.ltb_spec n 0); [lia|].
  replace (Z.to_nat (Z.min 0 (Z.of_nat (length l)))) with 0%nat by lia.
  rewrite drop_0.
  destruct (decide (Z.to_nat n ≤ length l)%nat).
  - f_equal. lia.
  - rewrite !take_ge by lia. done.
Qed.

(** X15: the report of [test_database] has the same six keys in every
    case; its [database_url] and [database_name] tell only whether the
    environment variables are set and not empty, whatever the database
    handle is. *)
Theorem diagnostics_report_the_environment
    (import_db : result (option db_handle)) (getenv : string → option string) :
  let report := test_database import_db getenv in
  let set_or_not (name : string) :=
    VStr (if truthy (getenv name) then "✅ Set" else "❌ Not Set") in
  report !! "database_url" = Some (set_or_not "DATABASE_URL")
  ∧ report !! "database_name" = Some (set_or_not "DATABASE_NAME")
  ∧ report !! "backend" = Some (VStr "✅ Running")
  ∧ dom report
    = list_to_set [ "backend"; "database"; "database_url"; "database_name";
                    "connection_status"; "collections" ].
Proof.
  simpl. unfold test_database.
  destruct import_db as [[h|]|e]; [destruct (list_collection_names h)|..];
    split_and!; simplify_map_eq; try done;
    rewrite !dom_insert_L; vm_compute; reflexivity.
Qed.

(** X16: the report lists at most ten collections, the first ten the
    database names, and none unless the listing succeeded. *)
Theorem diagnostics_list_at_most_ten_collections
    (import_db : result (option db_handle)) (getenv : string → option string) :
  ∃ names : list string,
    test_database import_db getenv !! "collections"
    = Some (VList (VStr <$> names))
    ∧ (length names ≤ 10)%nat
    ∧ (∀ h listed,
         import_db = Ok (Some h) → list_collection_names h = Ok listed →
         names = take 10 listed)
    ∧ ((¬ ∃ h listed,
           import_db = Ok (Some h) ∧ list_collection_names h = Ok listed) →
       names = []).
Proof.
  unfold test_database.
  destruct import_db as [[h|]|e];
    [destruct (list_collection_names h) as [l|e] eqn:E|..].
  - exists (take 10 l). split_and!.
    + simplify_map_eq. by rewrite (slice_prefix l 10).
    + rewrite length_take. lia.
    + intros h' listed [= <-] Hl. rewrite E in Hl. by injection Hl as <-.
    + intros H. destruct H. eauto.
  - exists []. split_and!; [by simplify_map_eq|simpl; lia| |done].
    intros h' listed [= <-] Hl. by rewrite E in Hl.
  - exists []. split_and!; [by simplify_map_eq|simpl; lia| |done].
    by intros ? ? ?.
  - exists []. split_and!; [by simplify_map_eq|simpl; lia| |done].
    by intros ? ? ?.
Qed.

(** X17: the report says "Connected" exactly when a database handle
    exists, also when listing its collections fails, and "Connected &
    Working" exactly when the listing succeeded. *)
Theorem diagnostics_tell_connected_from_working
    (import_db : result (option db_handle)) (getenv : string → option string) :
  let report := test_database import_db getenv in
  (report !! "connection_status" = Some (VStr "Connected")
   ↔ ∃ h, import_db = Ok (Some h))
  ∧ (report !! "connection_status" = Some (VStr "Not Connected")
     ↔ ¬ ∃ h, import_db = Ok (Some h))
  ∧ (report !! "database" = Some (VStr "✅ Connected & Working")
     ↔ ∃ h listed,
         import_db = Ok (Some h) ∧ list_collection_names h = Ok listed).
Proof.
  simpl. unfold test_database.
  destruct import_db as [[h|]|e].
  - destruct (list_collection_names h) as [l|e] eqn:E;
      simplify_map_eq; split_and!.
    + split; [eauto|done].
    + split; [done|]. intros H. destruct H. eauto.
    + split; [eauto|done].
    + split; [eauto|done].
    + split; [done|]. intros H. destruct H. eauto.
    + split; [intros [= H]; simpl in H; discriminate|].
      intros (h' & l' & [= <-] & Hl). by rewrite E in Hl.
  - simplify_map_eq. split_and!.
    + split; [done|]. by intros [? ?].
    + split; [|done]. by intros _ [? ?].
    + split; [done|]. by intros (? & ? & ? & ?).
  - simplify_map_eq. split_and!.
    + split; [done|]. by intros [? ?].
    + split; [|done]. by intros _ [? ?].
    + split; [intros [= H]; simpl in H; discriminate|].
      by intros (? & ? & ? & ?).
Qed.

(** *** The further properties at concrete requests *)

Lemma product_matches_iff_every_filter_holds_witness :
  matches Regex.compile
    (filter_q None (Some "Hiking") (Some "trekking") None None
       (Some (10 # 1)) None) sample_product = true
  ↔ meets_text Regex.compile None sample_product
    ∧ (∀ t, Some "Hiking" = Some t → t ≠ "" → "Hiking" = t)
    ∧ (∀ t, Some "trekking" = Some t → t ≠ "" →
            t ∈ ["backpacking"; "trekking"])
    ∧ (∀ t, None = Some t → t ≠ "" → t ∈ ["all-season"])
    ∧ (∀ t, None = Some t → t ≠ "" → t ∈ ["recycled"])
    ∧ (∀ lo, Some (10 # 1) = Some lo → (lo <= 25 # 1)%Q)
    ∧ (∀ hi, None = Some hi → (25 # 1 <= hi)%Q).
Proof.
  apply (product_matches_iff_every_filter_holds Regex.compile None
           (Some "Hiking") (Some "trekking") None None (Some (10 # 1)) None
           sample_product "Hiking" ["backpacking"; "trekking"]
           ["all-season"] ["recycled"] (25 # 1)); reflexivity.
Defined.

Lemma listed_items_meet_every_filter_witness :
  ∃ r,
    list_products Regex.compile repr_unused handle_passes (Some sample_db) None
      (Some "Hiking") None None None None (Some (100 # 1)) None 1 12
    = Response r
    ∧ ∀ item : doc, item ∈ items r →
        meets_text Regex.compile None item
        ∧ meets_value (Some "Hiking") "category" item
        ∧ meets_value None "activity_types" item
        ∧ meets_value None "seasons" item
        ∧ meets_value None "sustainability_features" item
        ∧ meets_price Regex.compile None (Some (100 # 1)) item
        ∧ ∀ x lo hi, as_num (field item "price") = Some x →
            (None = Some lo → (lo <= x)%Q)
            ∧ (Some (100 # 1) = Some hi → (x <= hi)%Q).
Proof.
  eexists. split; [vm_compute; reflexivity|].
  apply (listed_items_meet_every_filter Regex.compile repr_unused handle_passes
           sample_db
           None (Some "Hiking") None None None None (Some (100 # 1)) None
           1 12).
  vm_compute. reflexivity.
Defined.

Lemma listed_items_are_renamed_stored_products_witness :
  ∃ r,
    list_products Regex.compile repr_unused handle_passes (Some sample_db) None
      (Some "Hiking") None None None None None None 1 12 = Response r
    ∧ ∀ item : doc, item ∈ items r →
        ∃ s : stored,
          s ∈ get_collection sample_db "product"
          ∧ matches Regex.compile
              (filter_q None (Some "Hiking") None None None None None)
              (as_dict s) = true
          ∧ item !! "id" = Some (VStr (str repr_unused (doc_id s)))
          ∧ item !! "_id" = None
          ∧ ∀ k, k ≠ "id" → k ≠ "_id" → item !! k = doc_fields s !! k.
Proof.
  eexists. split; [vm_compute; reflexivity|].
  apply (listed_items_are_renamed_stored_products Regex.compile
           repr_unused handle_passes
           sample_db None (Some "Hiking") None None None None None None 1 12).
  vm_compute. reflexivity.
Defined.

Lemma first_page_holds_every_match_witness :
  ∃ r,
    list_products Regex.compile repr_unused handle_passes (Some sample_db)
      (Some "k") None None None None None None (Some "price_desc") 1 5
    = Response r
    ∧ items r
      ≡ₚ rename_id_or_empty repr_unused
         <$> matching Regex.compile (get_collection sample_db "product")
               (filter_q (Some "k") None None None None None None)
    ∧ (sort_spec (Some "price_desc") = None →
       items r
       = rename_id_or_empty repr_unused
         <$> matching Regex.compile (get_collection sample_db "product")
               (filter_q (Some "k") None None None None None None)).
Proof.
  eexists. split; [vm_compute; reflexivity|].
  apply (first_page_holds_every_match Regex.compile repr_unused
           handle_passes sample_db (Some "k") None None None None None None
           (Some "price_desc") 5).
  - vm_compute. reflexivity.
  - lia.
  - vm_compute. discriminate.
Defined.

Lemma store_page_is_a_run_of_the_ordered_matches_witness :
  ∃ r,
    list_products Regex.compile repr_unused handle_passes (Some sample_db)
      None None None None None None None (Some "price_asc") 2 2 = Response r
    ∧ ∃ ordered : list doc,
        ordered
        ≡ₚ matching Regex.compile (get_collection sample_db "product")
             (filter_q None None None None None None None)
        ∧ (∀ key keys, sort_spec (Some "price_asc") = Some (key :: keys) →
                       Sorted (le_docs (key :: keys)) ordered)
        ∧ (sort_spec (Some "price_asc") = None →
           ordered
           = matching Regex.compile (get_collection sample_db "product")
               (filter_q None None None None None None None))
        ∧ items r
          = rename_id_or_empty repr_unused
            <$> take (Z.to_nat 2) (drop (Z.to_nat ((2 - 1) * 2)) ordered).
Proof.
  eexists. split; [vm_compute; reflexivity|].
  apply (store_page_is_a_run_of_the_ordered_matches Regex.compile
           repr_unused handle_passes sample_db None None None None None None
           None (Some "price_asc") 2 2).
  - vm_compute. reflexivity.
  - lia.
Defined.

Lemma store_listing_answers_or_fails_with_500_witness :
  list_products Regex.compile repr_unused handle_passes (Some sample_db)
    None None None None None None None None (-1) 4
  = HTTPException 500 "skip must be >= 0".
Proof.
  apply (store_listing_answers_or_fails_with_500 Regex.compile repr_unused
           handle_passes sample_db None None None None None None None None
           (-1) 4).
  - reflexivity.
  - intros t [=].
  - lia.
Defined.

Lemma dropping_filters_keeps_every_match_witness :
  (∀ d : doc,
     matches Regex.compile
       (filter_q None (Some "Hiking") None None None (Some (10 # 1)) None) d
     = true →
     matches Regex.compile
       (filter_q None (Some "Hiking") None None None None None) d = true)
  ∧ (length (matching Regex.compile (get_collection sample_db "product")
               (filter_q None (Some "Hiking") None None None
                  (Some (10 # 1)) None))
     ≤ length (matching Regex.compile (get_collection sample_db "product")
                 (filter_q None (Some "Hiking") None None None None None)))%nat.
Proof.
  apply (dropping_filters_keeps_every_match Regex.compile
           (get_collection sample_db "product")
           None (Some "Hiking") None None None (Some (10 # 1)) None
           None (Some "Hiking") None None None None None);
    first [by right | by left].
Defined.

Lemma inverted_price_range_lists_nothing_witness :
  ∃ r,
    list_products Regex.compile repr_unused handle_passes
        (Some sample_db) None None None
      None None (Some (100 # 1)) (Some (50 # 1)) None 1 12 = Response r
    ∧ items r = [] ∧ total r = 0.
Proof.
  eexists. split; [vm_compute; reflexivity|].
  apply (inverted_price_range_lists_nothing Regex.compile
           repr_unused handle_passes
           sample_db None None None None None (100 # 1) (50 # 1) None 1 12).
  - reflexivity.
  - repeat constructor; vm_compute; eauto.
  - vm_compute. reflexivity.
Defined.

Lemma unordered_sort_modes_agree_witness :
  list_products Regex.compile repr_unused handle_passes
      (Some sample_db) None None None
    None None None None (Some "newest") 1 12
  = list_products Regex.compile repr_unused handle_passes
      (Some sample_db) None None None
      None None None None (Some "relevance") 1 12.
Proof.
  apply (unordered_sort_modes_agree Regex.compile repr_unused handle_passes
           (Some sample_db) None None None None None None None
           (Some "newest") 1 12); discriminate.
Defined.

Lemma fallback_pages_tile_the_demo_items_witness :
  ∃ r,
    list_products Regex.compile repr_unused handle_passes
        None None None None None None
      None None None 2 2 = Response r
    ∧ ∀ j : nat,
        items r !! j
        = if bool_decide (Z.of_nat j < 2)
          then demo_items !! (Z.to_nat ((2 - 1) * 2) + j)%nat
          else None.
Proof.
  apply (fallback_pages_tile_the_demo_items Regex.compile
           repr_unused handle_passes
           None
           None None None None None None None 2 2); lia.
Defined.

Lemma fallback_never_exceeds_page_size_witness :
  ∃ r,
    list_products Regex.compile repr_unused handle_passes
        None None None None None None
      None None None (-1) 2 = Response r
    ∧ total r = 3
    ∧ Z.of_nat (length (items r)) ≤ Z.min 3 2.
Proof.
  apply (fallback_never_exceeds_page_size Regex.compile
           repr_unused handle_passes
           None
           None None None None None None None (-1) 2); lia.
Defined.

Lemma impact_reads_the_first_record_witness :
  get_impact (λ _, None) (λ _, None) (λ _ _ _, Ok [sample_impact; ∅])
  = Response {| trees_planted := 12;
                bottles_recycled := 0;
                carbon_offset_kg := inject_Z 40 |}.
Proof.
  apply (impact_reads_the_first_record (λ _, None) (λ _, None)
           (λ _ _ _, Ok [sample_impact; ∅]) sample_impact [∅]);
    try reflexivity.
  right. exists 40. split_and!; [reflexivity|vm_compute; discriminate|done].
Defined.

Lemma impact_falls_back_as_a_whole_witness :
  get_impact (λ _, None) (λ _, None)
    (λ _ _ _, Ok [ <["bottles_recycled" := VNone]> sample_impact ])
  = Response impact_fallback.
Proof.
  apply (impact_falls_back_as_a_whole (λ _, None) (λ _, None)
           (λ _ _ _, Ok [ <["bottles_recycled" := VNone]> sample_impact ])
           (<["bottles_recycled" := VNone]> sample_impact) []).
  - reflexivity.
  - right. left. vm_compute. exact I.
Defined.

Lemma reviews_carry_their_identifier_witness :
  ∃ out,
    get_reviews repr_unused (λ _ _ _, Ok [sample_review])
      "665f1c2ab1e4a90012ab34c1" None = Response out
    ∧ length out = 1%nat
    ∧ ∀ (i : nat) (item : doc), [sample_review] !! i = Some item →
        ∃ item' : doc,
          out !! i = Some item'
          ∧ item' !! "_id" = None
          ∧ (∀ v, item !! "_id" = Some v →
                  item' !! "id" = Some (VStr (str repr_unused v)))
          ∧ ∀ k, k ≠ "id" → k ≠ "_id" → item' !! k = item !! k.
Proof.
  apply (proj2 (reviews_carry_their_identifier repr_unused
                  (λ _ _ _, Ok [sample_review])
                  "665f1c2ab1e4a90012ab34c1" None) [sample_review]).
  reflexivity.
Defined.

Lemma diagnostics_list_at_most_ten_collections_witness :
  ∃ names : list string,
    test_database (Ok (Some sample_handle)) (λ _, None) !! "collections"
    = Some (VList (VStr <$> names))
    ∧ names = ["product"; "review"; "impactstats"].
Proof.
  destruct (diagnostics_list_at_most_ten_collections
              (Ok (Some sample_handle)) (λ _, None))
    as (names & Hl & _ & Hn & _).
  exists names. split; [done|].
  apply (Hn sample_handle ["product"; "review"; "impactstats"]); reflexivity.
Defined.

Lemma diagnostics_tell_connected_from_working_witness :
  test_database (Ok (Some sample_handle)) (λ _, None) !! "database"
  = Some (VStr "✅ Connected & Working").
Proof.
  apply (proj2 (proj2 (diagnostics_tell_connected_from_working
                         (Ok (Some sample_handle)) (λ _, None)))).
  exists sample_handle, ["product"; "review"; "impactstats"]. done.
Defined.
